(** * Backbone topology of [yolox/models/darknet.py]

    A shallow embedding of the two backbone builders, [Darknet] and
    [CSPDarknet], and of their [forward] methods.

    - Python [int] is [Z]; Python [float] is an IEEE binary64 number,
      taken from [SpecFloat] with [prec = 53] and [emax = 1024].
    - [__init__] runs in a small state-and-error monad whose state is the
      list of blocks constructed so far, in construction order, so that
      "what has been built when an assertion fails" is a value.
    - [forward] runs in the same kind of monad whose state is the list of
      stage modules that have been called; the numeric engine behind a
      module call is a parameter and may raise.
    - a [dict] is an association list in insertion order. *)

From Stdlib Require Import ZArith List String Bool Lia Permutation.
From Stdlib Require Import QArith Qabs Qpower Qfield.
From Stdlib Require Import Floats.SpecFloat.
From stdpp Require Import base gmap strings.
Import ListNotations.

Local Open Scope string_scope.
Local Open Scope list_scope.
Local Open Scope Z_scope.

(** ** Python values *)

Module Py.

(** Exceptions the modelled code can raise. *)
Inductive exn : Type :=
| AssertionError (msg : option string)
| ValueError
| OverflowError
| KeyError
| IndexError.

Inductive result (A : Type) : Type :=
| Ok (a : A)
| Raise (e : exn).
Arguments Ok {A} a.
Arguments Raise {A} e.

(** *** binary64 floats *)

Definition prec : Z := 53.
Definition emax : Z := 1024.

Definition float : Type := spec_float.

(** The float nearest to [m * 2^e] (ties to even), used for literals
    and for the implicit [int -> float] conversion of [float * int]. *)
Definition float_of (m e : Z) : float := binary_normalize prec emax m e false.

Definition float_of_int (z : Z) : float := float_of z 0.

Definition fmul (x y : float) : float := SFmul prec emax x y.

(** [x * k] for a float [x] and an int literal [k]. *)
Definition fmul_int (x : float) (k : Z) : float := fmul x (float_of_int k).

Definition finite (x : float) : bool :=
  match x with
  | S754_zero _ | S754_finite _ _ _ => true
  | _ => false
  end.

(** [int(x)]: the integer part, towards zero. *)
Definition int (x : float) : result Z :=
  match x with
  | S754_nan => Raise ValueError
  | S754_infinity _ => Raise OverflowError
  | S754_zero _ => Ok 0
  | S754_finite s m e => Ok (cond_Zopp s (Z.shiftl (Zpos m) e))
  end.

(** The integer nearest to [m * 2^e] for [m >= 0], ties to the even
    neighbour. *)
Definition nearest_even (m e : Z) : Z :=
  if 0 <=? e then Z.shiftl m e
  else
    let q := Z.shiftr m (- e) in
    let r := m mod 2 ^ (- e) in
    match 2 * r ?= 2 ^ (- e) with
    | Lt => q
    | Gt => q + 1
    | Eq => if Z.even q then q else q + 1
    end.

(** [round(x)] with one argument. *)
Definition round (x : float) : result Z :=
  match x with
  | S754_nan => Raise ValueError
  | S754_infinity _ => Raise OverflowError
  | S754_zero _ => Ok 0
  | S754_finite s m e => Ok (cond_Zopp s (nearest_even (Zpos m) e))
  end.

(** The rational a finite float stands for: [(-1)^s * m * 2^e]. *)
Definition F2Q (x : float) : Q :=
  match x with
  | S754_finite s m e =>
      match e with
      | Zneg p => Qmake (cond_Zopp s (Zpos m)) (2 ^ p)%positive
      | _ => inject_Z (cond_Zopp s (Zpos m * 2 ^ e))
      end
  | _ => 0%Q
  end.

(** *** sequences and dicts *)

(** [k in t] for a tuple or list of strings. *)
Definition contains (t : list string) (k : string) : bool :=
  existsb (String.eqb k) t.

(** Truth value of a tuple or list. *)
Definition truthy {A : Type} (t : list A) : bool :=
  match t with
  | [] => false
  | _ :: _ => true
  end.

(** [l[i]] for a list. *)
Definition getitem {A : Type} (l : list A) (i : nat) : result A :=
  match nth_error l i with
  | Some a => Ok a
  | None => Raise IndexError
  end.

Section Dict.
Context {V : Type}.

(** A dict keeps its items in insertion order. *)
Definition dict : Type := list (string * V).

(** [d[k] = v]: overwrite in place, or append a new item. *)
Fixpoint setitem (d : dict) (k : string) (v : V) : dict :=
  match d with
  | [] => [(k, v)]
  | (k', v') :: d' =>
      if String.eqb k' k then (k', v) :: d' else (k', v') :: setitem d' k v
  end.

Definition keys (d : dict) : list string := map fst d.

(** [{k: v for k, v in d.items() if p(k)}] *)
Definition comprehension (p : string -> bool) (d : dict) : dict :=
  fold_left (fun acc kv => if p (fst kv) then setitem acc (fst kv) (snd kv) else acc)
            d [].
End Dict.
Arguments dict V : clear implicits.

End Py.

Import Py.

(** ** Blocks of [network_blocks] *)

(** Modelled from the spec: the classes [BaseConv], [ResLayer], [CSPLayer],
    [Focus] and [SPPBottleneck] live in [network_blocks], which is not part
    of the sources at hand.  Following the data model of the specification
    ("Block: polymorphic over variants ..., each Block records its
    input/output channel counts and stride"), a block is the record of the
    arguments its constructor was called with; an argument that the call
    site leaves to the callee's default is [None]. *)
Inductive Block : Type :=
| BaseConv (in_channels out_channels ksize stride : Z) (act : string)
| ResLayer (in_channels : Z)
| CSPLayer (in_channels out_channels n : Z) (shortcut : option bool)
           (depthwise : bool) (act : string)
| Focus (in_channels out_channels ksize : Z) (act : string)
| SPPBottleneck (in_channels out_channels : Z) (activation : string).

(** Modelled from the spec: the declared input and output channel counts
    of a block ("each Block records its input/output channel counts").
    [ResLayer], whose class is not at hand, is called with one count; a
    residual layer adds its input to its output, so that count stands for
    both. *)
Definition block_in (b : Block) : Z :=
  match b with
  | BaseConv i _ _ _ _ => i
  | ResLayer i => i
  | CSPLayer i _ _ _ _ _ => i
  | Focus i _ _ _ => i
  | SPPBottleneck i _ _ => i
  end.

Definition block_out (b : Block) : Z :=
  match b with
  | BaseConv _ o _ _ _ => o
  | ResLayer i => i
  | CSPLayer _ o _ _ _ _ => o
  | Focus _ o _ _ => o
  | SPPBottleneck _ o _ => o
  end.

(** A stage attribute is either one block or an [nn.Sequential] of blocks. *)
Inductive Layer : Type :=
| Single (b : Block)
| Sequential (bs : list Block).

Definition blocks (l : Layer) : list Block :=
  match l with
  | Single b => [b]
  | Sequential bs => bs
  end.

(** The attributes both classes set on [self]. *)
Record Backbone : Type := mkBackbone {
  out_features : list string;
  stem : Layer;
  dark2 : Layer;
  dark3 : Layer;
  dark4 : Layer;
  dark5 : Layer
}.

(** ** A state-and-error monad *)

(** A computation reads a log, extends it, and returns or raises.  The
    log survives a raise: it tells what had happened by then. *)
Definition M (S A : Type) : Type := S -> S * result A.

Definition ret {S A : Type} (a : A) : M S A := fun s => (s, Ok a).

Definition bind {S A B : Type} (m : M S A) (k : A -> M S B) : M S B :=
  fun s =>
    match m s with
    | (s', Ok a) => k a s'
    | (s', Raise e) => (s', Raise e)
    end.

Definition lift {S A : Type} (r : result A) : M S A := fun s => (s, r).

Definition assert_ {S : Type} (c : bool) (msg : option string) : M S unit :=
  if c then ret tt else lift (Raise (AssertionError msg)).

(** Construction: the log is the list of blocks constructed so far,
    oldest first. *)
Definition Build (A : Type) : Type := M (list Block) A.

(** Calling a block constructor. *)
Definition new (b : Block) : Build Block := fun built => (built ++ [b], Ok b).

Declare Scope monad_scope.
Delimit Scope monad_scope with monad.
Notation "x <- m ;; k" := (bind m (fun x => k))
  (at level 100, m at next level, right associativity) : monad_scope.
Notation "m ;;; k" := (bind m (fun _ => k))
  (at level 100, right associativity) : monad_scope.
Local Open Scope monad_scope.

(** [[f() for _ in range(n)]] *)
Fixpoint repeat_new (n : nat) (b : Block) : Build (list Block) :=
  match n with
  | O => ret []
  | S n' => x <- new b ;; xs <- repeat_new n' b ;; ret (x :: xs)
  end.

(** ** Evaluation monad *)

(** Evaluation: the log is the list of attribute names of the stage
    modules called so far, oldest first. *)
Definition Fwd (A : Type) : Type := M (list string) A.

(** [self.<name>(x)]: the call is logged, then the numeric engine [run]
    computes the stage's output or raises. *)
Definition call_module {Tensor : Type} (run : Layer -> Tensor -> result Tensor)
           (name : string) (m : Layer) (x : Tensor) : Fwd Tensor :=
  fun called => (called ++ [name], run m x).

(** ** class Darknet *)

Module Darknet.

(** number of blocks from dark2 to dark5. *)
Definition depth2blocks : list (Z * list Z) :=
  [(21, [1; 2; 2; 1]); (53, [2; 8; 8; 4])].

(** [Darknet.depth2blocks[depth]] *)
Fixpoint lookup (d : list (Z * list Z)) (depth : Z) : result (list Z) :=
  match d with
  | [] => Raise KeyError
  | (k, v) :: d' => if k =? depth then Ok v else lookup d' depth
  end.

(** starts with conv layer then has [num_blocks] [ResLayer] *)
Definition make_group_layer (in_channels num_blocks stride : Z) : Build (list Block) :=
  c <- new (BaseConv in_channels (in_channels * 2) 3 stride "lrelu") ;;
  rs <- repeat_new (Z.to_nat num_blocks) (ResLayer (in_channels * 2)) ;;
  ret (c :: rs).

(** The source wraps the five blocks in an [nn.Sequential] that the only
    caller unpacks again with [*]; the list of its children is returned. *)
Definition make_spp_block (filters_list : list Z) (in_filters : Z) : Build (list Block) :=
  f0 <- lift (getitem filters_list 0) ;;
  b1 <- new (BaseConv in_filters f0 1 1 "lrelu") ;;
  f0 <- lift (getitem filters_list 0) ;;
  f1 <- lift (getitem filters_list 1) ;;
  b2 <- new (BaseConv f0 f1 3 1 "lrelu") ;;
  f1 <- lift (getitem filters_list 1) ;;
  f0 <- lift (getitem filters_list 0) ;;
  b3 <- new (SPPBottleneck f1 f0 "lrelu") ;;
  f0 <- lift (getitem filters_list 0) ;;
  f1 <- lift (getitem filters_list 1) ;;
  b4 <- new (BaseConv f0 f1 3 1 "lrelu") ;;
  f1 <- lift (getitem filters_list 1) ;;
  f0 <- lift (getitem filters_list 0) ;;
  b5 <- new (BaseConv f1 f0 1 1 "lrelu") ;;
  ret [b1; b2; b3; b4; b5].

(** Defaults of the keyword arguments. *)
Definition default_in_channels : Z := 3.
Definition default_stem_out_channels : Z := 32.
Definition default_out_features : list string := ["dark3"; "dark4"; "dark5"].

Definition __init__ (depth in_channels stem_out_channels : Z)
           (out_features : list string) : Build Backbone :=
  assert_ (truthy out_features) (Some "please provide output features of Darknet") ;;;
  c <- new (BaseConv in_channels stem_out_channels 3 1 "lrelu") ;;
  g <- make_group_layer stem_out_channels 1 2 ;;
  let stem := Sequential (c :: g) in
  let in_channels := stem_out_channels * 2 in
  assert_ ((depth =? 21) || (depth =? 53)) None ;;;
  num_blocks <- lift (lookup depth2blocks depth) ;;
  n0 <- lift (getitem num_blocks 0) ;;
  g2 <- make_group_layer in_channels n0 2 ;;
  let dark2 := Sequential g2 in
  let in_channels := in_channels * 2 in
  n1 <- lift (getitem num_blocks 1) ;;
  g3 <- make_group_layer in_channels n1 2 ;;
  let dark3 := Sequential g3 in
  let in_channels := in_channels * 2 in
  n2 <- lift (getitem num_blocks 2) ;;
  g4 <- make_group_layer in_channels n2 2 ;;
  let dark4 := Sequential g4 in
  let in_channels := in_channels * 2 in
  n3 <- lift (getitem num_blocks 3) ;;
  g5 <- make_group_layer in_channels n3 2 ;;
  s5 <- make_spp_block [in_channels; in_channels * 2] (in_channels * 2) ;;
  let dark5 := Sequential (g5 ++ s5) in
  ret (mkBackbone out_features stem dark2 dark3 dark4 dark5).

Section Forward.
Context {Tensor : Type}.
Variable run : Layer -> Tensor -> result Tensor.

Definition forward (self : Backbone) (x : Tensor) : Fwd (dict Tensor) :=
  let outputs := [] in
  x <- call_module run "stem" (stem self) x ;;
  let outputs := setitem outputs "stem" x in
  x <- call_module run "dark2" (dark2 self) x ;;
  let outputs := setitem outputs "dark2" x in
  x <- call_module run "dark3" (dark3 self) x ;;
  let outputs := setitem outputs "dark3" x in
  x <- call_module run "dark4" (dark4 self) x ;;
  let outputs := setitem outputs "dark4" x in
  x <- call_module run "dark5" (dark5 self) x ;;
  let outputs := setitem outputs "dark5" x in
  ret (comprehension (contains (out_features self)) outputs).
End Forward.

End Darknet.

(** ** class CSPDarknet *)

Module CSPDarknet.

(** Defaults of the keyword arguments. *)
Definition default_out_features : list string := ["dark3"; "dark4"; "dark5"].
Definition default_act : string := "silu".
Definition default_depthwise : bool := false.

Definition __init__ (depth_multiplier width_multiplier : float)
           (out_features : list string) (act : string) (depthwise : bool)
  : Build Backbone :=
  assert_ (truthy out_features) (Some "please provide output features of Darknet") ;;;
  base_channels <- lift (int (fmul_int width_multiplier 64)) ;;
  r <- lift (round (fmul_int depth_multiplier 3)) ;;
  let base_depth := Z.max r 1 in
  (* stem *)
  f <- new (Focus 3 base_channels 3 act) ;;
  let stem := Single f in
  (* dark2 *)
  c2 <- new (BaseConv base_channels (base_channels * 2) 3 2 act) ;;
  l2 <- new (CSPLayer (base_channels * 2) (base_channels * 2) base_depth
                      None depthwise act) ;;
  let dark2 := Sequential [c2; l2] in
  (* dark3 *)
  c3 <- new (BaseConv (base_channels * 2) (base_channels * 4) 3 2 act) ;;
  l3 <- new (CSPLayer (base_channels * 4) (base_channels * 4) (base_depth * 3)
                      None depthwise act) ;;
  let dark3 := Sequential [c3; l3] in
  (* dark4 *)
  c4 <- new (BaseConv (base_channels * 4) (base_channels * 8) 3 2 act) ;;
  l4 <- new (CSPLayer (base_channels * 8) (base_channels * 8) (base_depth * 3)
                      None depthwise act) ;;
  let dark4 := Sequential [c4; l4] in
  (* dark5 *)
  c5 <- new (BaseConv (base_channels * 8) (base_channels * 16) 3 2 act) ;;
  s5 <- new (SPPBottleneck (base_channels * 16) (base_channels * 16) act) ;;
  l5 <- new (CSPLayer (base_channels * 16) (base_channels * 16) base_depth
                      (Some false) depthwise act) ;;
  let dark5 := Sequential [c5; s5; l5] in
  ret (mkBackbone out_features stem dark2 dark3 dark4 dark5).

Section Forward.
Context {Tensor : Type}.
Variable run : Layer -> Tensor -> result Tensor.

Definition forward (self : Backbone) (x : Tensor) : Fwd (dict Tensor) :=
  let outputs := [] in
  x <- call_module run "stem" (stem self) x ;;
  let outputs := setitem outputs "stem" x in
  x <- call_module run "dark2" (dark2 self) x ;;
  let outputs := setitem outputs "dark2" x in
  x <- call_module run "dark3" (dark3 self) x ;;
  let outputs := setitem outputs "dark3" x in
  x <- call_module run "dark4" (dark4 self) x ;;
  let outputs := setitem outputs "dark4" x in
  x <- call_module run "dark5" (dark5 self) x ;;
  let outputs := setitem outputs "dark5" x in
  ret (comprehension (contains (out_features self)) outputs).
End Forward.

End CSPDarknet.

(** ** Observations on a constructed network *)

Definition stage_names : list string := ["stem"; "dark2"; "dark3"; "dark4"; "dark5"].

(** The stages of a network, in evaluation order. *)
Definition stages (self : Backbone) : list Layer :=
  [stem self; dark2 self; dark3 self; dark4 self; dark5 self].

(** Declared output channel count of a stage: that of its last block. *)
Definition stage_out (l : Layer) : option Z :=
  option_map block_out (last (blocks l)).

(** Every block takes as many channels as the block before it gives. *)
Fixpoint wired (c : Z) (bs : list Block) : bool :=
  match bs with
  | [] => true
  | b :: bs' => (block_in b =? c) && wired (block_out b) bs'
  end.

Definition all_blocks (self : Backbone) : list Block :=
  flat_map blocks (stages self).

Definition is_ResLayer (b : Block) : bool :=
  match b with
  | ResLayer _ => true
  | _ => false
  end.

(** Number of [ResLayer] blocks of a stage. *)
Definition res_repeats (l : Layer) : Z :=
  Z.of_nat (List.length (List.filter is_ResLayer (blocks l))).

(** The repeat counts [n] of the [CSPLayer] blocks of a stage. *)
Definition csp_repeats (l : Layer) : list Z :=
  flat_map (fun b => match b with
                     | CSPLayer _ _ n _ _ _ => [n]
                     | _ => []
                     end) (blocks l).

(** The two classes of the file. *)
Inductive Arch : Type := IsDarknet | IsCSPDarknet.

(** [constructed v outs built self]: a constructor call of class [v] with
    requested output names [outs] returned [self], having built [built]. *)
Inductive constructed : Arch -> list string -> list Block -> Backbone -> Prop :=
| constructed_Darknet depth in_channels stem_out_channels outs built self :
    Darknet.__init__ depth in_channels stem_out_channels outs [] = (built, Ok self) ->
    constructed IsDarknet outs built self
| constructed_CSPDarknet depth_multiplier width_multiplier outs act depthwise built self :
    CSPDarknet.__init__ depth_multiplier width_multiplier outs act depthwise []
    = (built, Ok self) ->
    constructed IsCSPDarknet outs built self.

(** Method dispatch on the class of [self]. *)
Definition forward_of {Tensor : Type} (v : Arch)
           (run : Layer -> Tensor -> result Tensor)
  : Backbone -> Tensor -> Fwd (dict Tensor) :=
  match v with
  | IsDarknet => Darknet.forward run
  | IsCSPDarknet => CSPDarknet.forward run
  end.

(** The blocks of a group layer and of the pooling tail, as values. *)
Definition group (c n stride : Z) : list Block :=
  BaseConv c (c * 2) 3 stride "lrelu" :: repeat (ResLayer (c * 2)) (Z.to_nat n).

Definition spp (f0 f1 c : Z) : list Block :=
  [BaseConv c f0 1 1 "lrelu"; BaseConv f0 f1 3 1 "lrelu";
   SPPBottleneck f1 f0 "lrelu"; BaseConv f0 f1 3 1 "lrelu";
   BaseConv f1 f0 1 1 "lrelu"].

(** ** Shapes of the constructed networks *)

(** The network a successful [Darknet] construction returns, and what it
    has built by then, for repeat counts [n0..n3]. *)
Definition darknet_stem (i s : Z) : list Block :=
  BaseConv i s 3 1 "lrelu" :: group s 1 2.

Definition darknet_dark5 (c n : Z) : list Block :=
  group c n 2 ++ spp c (c * 2) (c * 2).

Definition darknet_net (i s n0 n1 n2 n3 : Z) (outs : list string) : Backbone :=
  mkBackbone outs
    (Sequential (darknet_stem i s))
    (Sequential (group (s * 2) n0 2))
    (Sequential (group (s * 2 * 2) n1 2))
    (Sequential (group (s * 2 * 2 * 2) n2 2))
    (Sequential (darknet_dark5 (s * 2 * 2 * 2 * 2) n3)).

(** The network a successful [CSPDarknet] construction returns, for base
    channel count [bc] and base depth [bd]. *)
Definition csp_net (bc bd : Z) (outs : list string) (act : string) (dw : bool)
  : Backbone :=
  mkBackbone outs
    (Single (Focus 3 bc 3 act))
    (Sequential [BaseConv bc (bc * 2) 3 2 act;
                 CSPLayer (bc * 2) (bc * 2) bd None dw act])
    (Sequential [BaseConv (bc * 2) (bc * 4) 3 2 act;
                 CSPLayer (bc * 4) (bc * 4) (bd * 3) None dw act])
    (Sequential [BaseConv (bc * 4) (bc * 8) 3 2 act;
                 CSPLayer (bc * 8) (bc * 8) (bd * 3) None dw act])
    (Sequential [BaseConv (bc * 8) (bc * 16) 3 2 act;
                 SPPBottleneck (bc * 16) (bc * 16) act;
                 CSPLayer (bc * 16) (bc * 16) bd (Some false) dw act]).

(** [self] with another request. *)
Definition with_out_features (self : Backbone) (outs : list string) : Backbone :=
  mkBackbone outs (stem self) (dark2 self) (dark3 self) (dark4 self) (dark5 self).

(** ** Channel counts along a run of blocks *)

(** Output channel count after a run of blocks fed with [c] channels. *)
Definition chain_out (c : Z) (bs : list Block) : Z :=
  fold_left (fun _ b => block_out b) bs c.

(** ** Stage outputs of a run *)

Section Evaluation.
Context {Tensor : Type}.
Variable run : Layer -> Tensor -> result Tensor.

(** The five stage outputs of a run in which no stage raises. *)
Inductive runs_all (self : Backbone) (x : Tensor) : dict Tensor -> Prop :=
| runs_all_intro x1 x2 x3 x4 x5 :
    run (stem self) x = Ok x1 ->
    run (dark2 self) x1 = Ok x2 ->
    run (dark3 self) x2 = Ok x3 ->
    run (dark4 self) x3 = Ok x4 ->
    run (dark5 self) x4 = Ok x5 ->
    runs_all self x
      [("stem", x1); ("dark2", x2); ("dark3", x3); ("dark4", x4); ("dark5", x5)].

(** Restriction of a mapping to the requested names, in its own order. *)
Definition restrict (outs : list string) (d : dict Tensor) : dict Tensor :=
  List.filter (fun kv => contains outs (fst kv)) d.

End Evaluation.

(** ** Integers nearest to a rational *)

(** The integer part of a rational, towards zero. *)
Definition Qtrunc (q : Q) : Z := Z.quot (Qnum q) (Zpos (Qden q)).

(** [z] is an integer nearest to [q], the even one if there are two. *)
Definition nearest_even_to (q : Q) (z : Z) : Prop :=
  (Qabs (inject_Z z - q) <= 1 # 2)%Q /\
  (Qabs (inject_Z z - q) == 1 # 2 -> Z.even z = true)%Q.

(** ** Engines for the examples *)

(** An engine for the examples: a tensor is a number, and a module adds
    the number of its blocks to it. *)
Definition count_run (l : Layer) (x : Z) : result Z :=
  Ok (x + Z.of_nat (List.length (blocks l))).

(** An engine that raises in the last stage of the examples. *)
Definition short_run (l : Layer) (x : Z) : result Z :=
  if 100 <=? x then Raise ValueError else Ok (x + 25).

(** ** Further observations *)

(** The strides that the convolutions of a stage declare, in order. *)
Definition conv_strides (l : Layer) : list Z :=
  flat_map (fun b => match b with
                     | BaseConv _ _ _ stride _ => [stride]
                     | _ => []
                     end) (blocks l).

(** The kernel sizes that the convolutions of a stage declare, in order. *)
Definition conv_ksizes (l : Layer) : list Z :=
  flat_map (fun b => match b with
                     | BaseConv _ _ ksize _ _ => [ksize]
                     | _ => []
                     end) (blocks l).

(** The activation name a block constructor was given, if it takes one. *)
Definition block_act (b : Block) : option string :=
  match b with
  | BaseConv _ _ _ _ a => Some a
  | ResLayer _ => None
  | CSPLayer _ _ _ _ _ a => Some a
  | Focus _ _ _ a => Some a
  | SPPBottleneck _ _ a => Some a
  end.

(** The [shortcut] and [depthwise] arguments of the [CSPLayer] blocks of a
    stage. *)
Definition csp_flags (l : Layer) : list (option bool * bool) :=
  flat_map (fun b => match b with
                     | CSPLayer _ _ _ shortcut depthwise _ => [(shortcut, depthwise)]
                     | _ => []
                     end) (blocks l).

(** Feeding an input through modules, one after the other. *)
Fixpoint thread {Tensor : Type} (run : Layer -> Tensor -> result Tensor)
         (ls : list Layer) (x : Tensor) : result Tensor :=
  match ls with
  | [] => Ok x
  | l :: ls' =>
      match run l x with
      | Ok y => thread run ls' y
      | Raise e => Raise e
      end
  end.

(** [d.get(k)]: the value under a key, if any. *)
Fixpoint get {V : Type} (d : dict V) (k : string) : option V :=
  match d with
  | [] => None
  | (k', v) :: d' => if String.eqb k' k then Some v else get d' k
  end.

(** Number of [SPPBottleneck] blocks of a stage. *)
Definition spp_count (l : Layer) : nat :=
  List.length (List.filter (fun b => match b with
                                     | SPPBottleneck _ _ _ => true
                                     | _ => false
                                     end) (blocks l)).

(** * Lemmas *)

(** ** The monad *)

Lemma bind_Ok {S A B : Type} (m : M S A) (k : A -> M S B) s s' a :
  m s = (s', Ok a) -> bind m k s = k a s'.
Proof. intros H. unfold bind. now rewrite H. Qed.

Lemma bind_Raise {S A B : Type} (m : M S A) (k : A -> M S B) s s' e :
  m s = (s', Raise e) -> bind m k s = (s', Raise e).
Proof. intros H. unfold bind. now rewrite H. Qed.

(** ** Construction steps *)

Lemma repeat_new_spec n b built :
  repeat_new n b built = (built ++ repeat b n, Ok (repeat b n)).
Proof.
  revert built. induction n as [| n IH]; intros built; simpl.
  - unfold ret. now rewrite app_nil_r.
  - unfold bind at 1, new. unfold bind at 1. rewrite IH. unfold ret.
    now rewrite <- app_assoc.
Qed.

Lemma make_group_layer_spec c n stride built :
  Darknet.make_group_layer c n stride built
  = (built ++ group c n stride, Ok (group c n stride)).
Proof.
  unfold Darknet.make_group_layer, group.
  unfold bind at 1, new. unfold bind at 1. rewrite repeat_new_spec. unfold ret.
  now rewrite <- app_assoc.
Qed.

Lemma make_spp_block_spec f0 f1 c built :
  Darknet.make_spp_block [f0; f1] c built = (built ++ spp f0 f1 c, Ok (spp f0 f1 c)).
Proof.
  unfold Darknet.make_spp_block, spp, bind, lift, new, ret, getitem. simpl.
  now rewrite <- !app_assoc.
Qed.

Ltac run_build :=
  repeat (erewrite bind_Ok
            by first [ apply make_group_layer_spec
                     | apply make_spp_block_spec
                     | reflexivity ]).

Lemma Darknet_init_empty depth i s built :
  Darknet.__init__ depth i s [] built
  = (built, Raise (AssertionError (Some "please provide output features of Darknet"))).
Proof. reflexivity. Qed.

Lemma Darknet_init_bad_depth depth i s outs built :
  outs <> [] -> depth <> 21 -> depth <> 53 ->
  Darknet.__init__ depth i s outs built
  = (built ++ darknet_stem i s, Raise (AssertionError None)).
Proof.
  intros Ho H21 H53. unfold Darknet.__init__.
  destruct outs as [| o outs]; [congruence |].
  run_build.
  apply Z.eqb_neq in H21, H53. rewrite H21, H53.
  unfold darknet_stem. simpl. now rewrite <- !app_assoc.
Qed.

Lemma Darknet_init_good_depth depth i s outs n0 n1 n2 n3 built :
  outs <> [] ->
  Darknet.lookup Darknet.depth2blocks depth = Ok [n0; n1; n2; n3] ->
  Darknet.__init__ depth i s outs built
  = (built ++ all_blocks (darknet_net i s n0 n1 n2 n3 outs),
     Ok (darknet_net i s n0 n1 n2 n3 outs)).
Proof.
  intros Ho Hl. unfold Darknet.__init__.
  destruct outs as [| o outs]; [congruence |].
  assert (Hd : (depth =? 21) || (depth =? 53) = true).
  { unfold Darknet.depth2blocks, Darknet.lookup in Hl.
    destruct (21 =? depth) eqn:E1.
    - apply Z.eqb_eq in E1. subst. reflexivity.
    - destruct (53 =? depth) eqn:E2; [| discriminate].
      apply Z.eqb_eq in E2. subst. reflexivity. }
  run_build. rewrite Hd, Hl. run_build.
  unfold ret, darknet_net, all_blocks, stages, darknet_stem, darknet_dark5. simpl.
  rewrite <- ?app_assoc. simpl. rewrite ?app_nil_r. reflexivity.
Qed.

Lemma Darknet_init_inv depth i s outs built built' self :
  Darknet.__init__ depth i s outs built = (built', Ok self) ->
  outs <> [] /\
  exists n0 n1 n2 n3,
    (depth = 21 /\ [n0; n1; n2; n3] = [1; 2; 2; 1] \/
     depth = 53 /\ [n0; n1; n2; n3] = [2; 8; 8; 4]) /\
    self = darknet_net i s n0 n1 n2 n3 outs /\
    built' = built ++ all_blocks self.
Proof.
  intros H.
  destruct outs as [| o outs].
  { rewrite Darknet_init_empty in H. discriminate. }
  split; [discriminate |].
  destruct (Z.eq_dec depth 21) as [-> | N21].
  { rewrite (Darknet_init_good_depth 21 i s (o :: outs) 1 2 2 1) in H
      by (discriminate || reflexivity).
    inversion H; subst. exists 1, 2, 2, 1. auto. }
  destruct (Z.eq_dec depth 53) as [-> | N53].
  { rewrite (Darknet_init_good_depth 53 i s (o :: outs) 2 8 8 4) in H
      by (discriminate || reflexivity).
    inversion H; subst. exists 2, 8, 8, 4. auto. }
  rewrite Darknet_init_bad_depth in H by (assumption || discriminate).
  discriminate.
Qed.

Lemma CSPDarknet_init_empty d w act dw built :
  CSPDarknet.__init__ d w [] act dw built
  = (built, Raise (AssertionError (Some "please provide output features of Darknet"))).
Proof. reflexivity. Qed.

Lemma CSPDarknet_init_ok d w outs act dw built bc r :
  outs <> [] ->
  int (fmul_int w 64) = Ok bc ->
  round (fmul_int d 3) = Ok r ->
  CSPDarknet.__init__ d w outs act dw built
  = (built ++ all_blocks (csp_net bc (Z.max r 1) outs act dw),
     Ok (csp_net bc (Z.max r 1) outs act dw)).
Proof.
  intros Ho Hc Hr. unfold CSPDarknet.__init__.
  destruct outs as [| o outs]; [congruence |].
  run_build. rewrite Hc. run_build. rewrite Hr. run_build.
  unfold ret, csp_net, all_blocks, stages. simpl.
  rewrite <- ?app_assoc. reflexivity.
Qed.

Lemma CSPDarknet_init_inv d w outs act dw built built' self :
  CSPDarknet.__init__ d w outs act dw built = (built', Ok self) ->
  outs <> [] /\
  exists bc r,
    int (fmul_int w 64) = Ok bc /\
    round (fmul_int d 3) = Ok r /\
    self = csp_net bc (Z.max r 1) outs act dw /\
    built' = built ++ all_blocks self.
Proof.
  intros H.
  destruct outs as [| o outs].
  { rewrite CSPDarknet_init_empty in H. discriminate. }
  split; [discriminate |].
  destruct (int (fmul_int w 64)) as [bc | e] eqn:Hc.
  2:{ unfold CSPDarknet.__init__ in H. revert H. run_build. rewrite Hc.
      erewrite bind_Raise by reflexivity. discriminate. }
  destruct (round (fmul_int d 3)) as [r | e] eqn:Hr.
  2:{ unfold CSPDarknet.__init__ in H. revert H. run_build. rewrite Hc.
      run_build. rewrite Hr. erewrite bind_Raise by reflexivity. discriminate. }
  rewrite (CSPDarknet_init_ok d w (o :: outs) act dw built bc r) in H
    by (assumption || discriminate).
  inversion H; subst. exists bc, r. auto.
Qed.

Lemma constructed_out_features v outs built self :
  constructed v outs built self -> out_features self = outs /\ outs <> [].
Proof.
  intros [depth i s o b n H | d w o act dw b n H].
  - apply Darknet_init_inv in H as (Ho & n0 & n1 & n2 & n3 & _ & -> & _). now split.
  - apply CSPDarknet_init_inv in H as (Ho & bc & r & _ & _ & -> & _). now split.
Qed.

Lemma constructed_with v outs built self outs' :
  constructed v outs built self -> outs' <> [] ->
  constructed v outs' built (with_out_features self outs').
Proof.
  intros [depth i s o b n H | d w o act dw b n H] Ho'.
  - apply Darknet_init_inv in H as (Ho & n0 & n1 & n2 & n3 & Hd & -> & ->).
    apply (constructed_Darknet depth i s).
    rewrite (Darknet_init_good_depth depth i s outs' n0 n1 n2 n3); [reflexivity | assumption |].
    destruct Hd as [[-> E] | [-> E]]; rewrite E; reflexivity.
  - apply CSPDarknet_init_inv in H as (Ho & bc & r & Hc & Hr & -> & ->).
    apply (constructed_CSPDarknet d w outs' act dw).
    now rewrite (CSPDarknet_init_ok d w outs' act dw [] bc r).
Qed.

(** ** Dicts *)

Section DictLemmas.
Context {V : Type}.
Implicit Types (d : dict V) (k : string) (v : V).

Lemma setitem_fresh d k v :
  ~ In k (keys d) -> setitem d k v = d ++ [(k, v)].
Proof.
  induction d as [| [k' v'] d IH]; simpl; intros H; [reflexivity |].
  destruct (String.eqb_spec k' k) as [-> | N].
  - exfalso. apply H. now left.
  - f_equal. apply IH. intros Hin. apply H. now right.
Qed.

Lemma keys_app d1 d2 : keys (d1 ++ d2) = keys d1 ++ keys d2.
Proof. unfold keys. apply map_app. Qed.

Lemma keys_filter (p : string -> bool) d :
  keys (List.filter (fun kv => p (fst kv)) d) = List.filter p (keys d).
Proof.
  induction d as [| [k v] d IH]; simpl; [reflexivity |].
  destruct (p k); simpl; now rewrite IH.
Qed.

Lemma comprehension_from (p : string -> bool) d acc :
  List.NoDup (keys acc ++ keys d) ->
  fold_left (fun a kv => if p (fst kv) then setitem a (fst kv) (snd kv) else a) d acc
  = acc ++ List.filter (fun kv => p (fst kv)) d.
Proof.
  revert acc. induction d as [| [k v] d IH]; intros acc Hnd; simpl.
  - now rewrite app_nil_r.
  - simpl in Hnd. destruct (p k) eqn:Hp.
    + rewrite setitem_fresh.
      * rewrite IH.
        -- now rewrite <- app_assoc.
        -- rewrite keys_app. simpl. now rewrite <- app_assoc.
      * apply List.NoDup_remove_2 in Hnd. intros Hin. apply Hnd.
        apply in_or_app. now left.
    + apply IH. now apply List.NoDup_remove_1 in Hnd.
Qed.

(** On a dict, whose keys are distinct, the comprehension is a filter
    that keeps the order of the items. *)
Lemma comprehension_filter (p : string -> bool) d :
  List.NoDup (keys d) ->
  comprehension p d = List.filter (fun kv => p (fst kv)) d.
Proof. intros H. unfold comprehension. now rewrite comprehension_from. Qed.
End DictLemmas.

Lemma contains_In t k : contains t k = true <-> In k t.
Proof.
  unfold contains. rewrite existsb_exists. split.
  - intros (y & Hy & E). apply String.eqb_eq in E. now subst.
  - intros H. exists k. split; [assumption | apply String.eqb_refl].
Qed.

(** ** Evaluation *)

Section ForwardLemmas.
Context {Tensor : Type}.
Variable run : Layer -> Tensor -> result Tensor.

Lemma runs_all_keys self x full : runs_all run self x full -> keys full = stage_names.
Proof. now intros []. Qed.

Lemma runs_all_with self outs x full :
  runs_all run self x full <-> runs_all run (with_out_features self outs) x full.
Proof. split; intros []; now constructor. Qed.

Lemma five_NoDup (x1 x2 x3 x4 x5 : Tensor) :
  List.NoDup (keys [("stem", x1); ("dark2", x2); ("dark3", x3);
                    ("dark4", x4); ("dark5", x5)]).
Proof.
  simpl. repeat constructor; simpl; intros H;
    repeat (destruct H as [H | H]; [discriminate H |]); exact H.
Qed.

Lemma Darknet_forward_Ok self x called called' r :
  Darknet.forward run self x called = (called', Ok r) <->
  exists full, runs_all run self x full /\
               called' = called ++ stage_names /\
               r = restrict (out_features self) full.
Proof.
  unfold Darknet.forward, bind, call_module, ret. split.
  - destruct (run (stem self) x) as [x1 |] eqn:E1; [| discriminate].
    destruct (run (dark2 self) x1) as [x2 |] eqn:E2; [| discriminate].
    destruct (run (dark3 self) x2) as [x3 |] eqn:E3; [| discriminate].
    destruct (run (dark4 self) x3) as [x4 |] eqn:E4; [| discriminate].
    destruct (run (dark5 self) x4) as [x5 |] eqn:E5; [| discriminate].
    intros H. inversion H; subst. eexists. split; [now econstructor; eauto |].
    split.
    + now rewrite <- !app_assoc.
    + simpl setitem. apply comprehension_filter, five_NoDup.
  - intros (full & [x1 x2 x3 x4 x5 E1 E2 E3 E4 E5] & -> & ->).
    rewrite E1, E2, E3, E4, E5. simpl setitem.
    rewrite comprehension_filter by apply five_NoDup.
    now rewrite <- !app_assoc.
Qed.

Lemma forward_of_Ok v self x called called' r :
  forward_of v run self x called = (called', Ok r) <->
  exists full, runs_all run self x full /\
               called' = called ++ stage_names /\
               r = restrict (out_features self) full.
Proof.
  destruct v; simpl;
    [| change (@CSPDarknet.forward Tensor) with (@Darknet.forward Tensor)];
    apply Darknet_forward_Ok.
Qed.

(** The log and the outcome of a run do not depend on the request. *)
Lemma forward_of_with v self outs x called :
  forward_of v run (with_out_features self outs) x called
  = (fst (forward_of v run self x called),
     match snd (forward_of v run self x called) with
     | Ok _ =>
         match snd (forward_of v run (with_out_features self stage_names) x called) with
         | Ok full => Ok (restrict outs full)
         | Raise e => Raise e
         end
     | Raise e => Raise e
     end).
Proof.
  destruct v; simpl;
    [| change (@CSPDarknet.forward Tensor) with (@Darknet.forward Tensor)];
    unfold Darknet.forward, bind, call_module, ret; simpl;
    repeat match goal with
           | |- context [match run ?l ?y with _ => _ end] =>
               destruct (run l y); try reflexivity
           end;
    cbn [fst snd]; rewrite !comprehension_filter by apply five_NoDup; reflexivity.
Qed.
End ForwardLemmas.

(** ** Channel wiring *)

Lemma wired_app c l1 l2 :
  wired c (l1 ++ l2) = wired c l1 && wired (chain_out c l1) l2.
Proof.
  revert c. induction l1 as [| b l1 IH]; intros c; simpl; [reflexivity |].
  now rewrite IH, andb_assoc.
Qed.

Lemma chain_out_app c l1 l2 : chain_out c (l1 ++ l2) = chain_out (chain_out c l1) l2.
Proof. unfold chain_out. apply fold_left_app. Qed.

Lemma stage_out_chain c bs :
  bs <> [] -> stage_out (Sequential bs) = Some (chain_out c bs).
Proof.
  unfold stage_out. simpl. revert c.
  induction bs as [| b bs IH]; intros c H; [congruence |].
  destruct bs as [| b' bs]; [reflexivity |].
  change (last (b :: b' :: bs)) with (last (b' :: bs)).
  rewrite (IH (block_out b)) by discriminate. reflexivity.
Qed.

Lemma wired_res c n : wired c (repeat (ResLayer c) n) = true.
Proof. induction n as [| n IH]; simpl; [reflexivity |]. now rewrite Z.eqb_refl. Qed.

Lemma chain_out_res c n : chain_out c (repeat (ResLayer c) n) = c.
Proof. induction n as [| n IH]; [reflexivity | exact IH]. Qed.

Lemma wired_group c n stride : wired c (group c n stride) = true.
Proof. unfold group. cbn [wired block_in block_out]. now rewrite Z.eqb_refl, wired_res. Qed.

Lemma chain_out_group c n stride : chain_out c (group c n stride) = c * 2.
Proof. unfold group. cbn [chain_out fold_left block_out]. apply chain_out_res. Qed.

Lemma wired_spp c : wired (c * 2) (spp c (c * 2) (c * 2)) = true.
Proof. unfold spp. cbn [wired block_in block_out]. now rewrite !Z.eqb_refl. Qed.

Lemma chain_out_spp c0 c : chain_out c0 (spp c (c * 2) (c * 2)) = c.
Proof. reflexivity. Qed.

Lemma group_not_nil c n stride : group c n stride <> [].
Proof. discriminate. Qed.

Lemma darknet_net_wired i s n0 n1 n2 n3 outs :
  wired i (all_blocks (darknet_net i s n0 n1 n2 n3 outs)) = true.
Proof.
  unfold all_blocks, stages, darknet_net, darknet_stem, darknet_dark5.
  cbn [flat_map blocks stem dark2 dark3 dark4 dark5]. rewrite app_nil_r.
  change (BaseConv i s 3 1 "lrelu" :: group s 1 2)
    with ([BaseConv i s 3 1 "lrelu"] ++ group s 1 2).
  rewrite <- !app_assoc.
  repeat (rewrite wired_app, ?chain_out_app, ?chain_out_group;
          cbn [chain_out fold_left block_out]).
  rewrite ?chain_out_app, ?chain_out_group.
  rewrite !wired_group, wired_spp.
  cbn [wired block_in block_out]. now rewrite Z.eqb_refl.
Qed.

Lemma darknet_net_stage_outs i s n0 n1 n2 n3 outs :
  map stage_out (stages (darknet_net i s n0 n1 n2 n3 outs))
  = [Some (2 * s); Some (4 * s); Some (8 * s); Some (16 * s); Some (16 * s)].
Proof.
  unfold stages, darknet_net, darknet_stem, darknet_dark5.
  cbn [map stem dark2 dark3 dark4 dark5].
  rewrite (stage_out_chain i) by discriminate.
  rewrite (stage_out_chain (s * 2)) by apply group_not_nil.
  rewrite (stage_out_chain (s * 2 * 2)) by apply group_not_nil.
  rewrite (stage_out_chain (s * 2 * 2 * 2)) by apply group_not_nil.
  rewrite (stage_out_chain (s * 2 * 2 * 2 * 2)) by (unfold group; discriminate).
  change (chain_out i (BaseConv i s 3 1 "lrelu" :: group s 1 2))
    with (chain_out s (group s 1 2)).
  rewrite chain_out_app, !chain_out_group, chain_out_spp.
  repeat (apply f_equal2; [apply f_equal; lia |]). reflexivity.
Qed.

Lemma csp_net_wired bc bd outs act dw :
  wired 3 (all_blocks (csp_net bc bd outs act dw)) = true.
Proof.
  unfold all_blocks, stages, csp_net.
  cbn [flat_map blocks stem dark2 dark3 dark4 dark5 app wired block_in block_out].
  now rewrite !Z.eqb_refl.
Qed.

Lemma csp_net_stage_outs bc bd outs act dw :
  map stage_out (stages (csp_net bc bd outs act dw))
  = [Some bc; Some (2 * bc); Some (4 * bc); Some (8 * bc); Some (16 * bc)].
Proof.
  unfold stages, csp_net, stage_out.
  cbn [map stem dark2 dark3 dark4 dark5 blocks last option_map block_out].
  repeat (apply f_equal2; [apply f_equal; lia |]). reflexivity.
Qed.

(** ** Float to integer conversions *)

Lemma pos_pow_Z p : Zpos (2 ^ p) = 2 ^ Zpos p.
Proof. now rewrite Pos2Z.inj_pow. Qed.

Lemma cond_Zopp_quot s a b :
  b <> 0 -> Z.quot (cond_Zopp s a) b = cond_Zopp s (Z.quot a b).
Proof. intros Hb. destruct s; simpl; [now apply Z.quot_opp_l | reflexivity]. Qed.

Lemma int_finite x : finite x = true -> int x = Ok (Qtrunc (F2Q x)).
Proof.
  destruct x as [s | s | | s m e]; try discriminate; intros _; [reflexivity |].
  unfold int, F2Q, Qtrunc. f_equal.
  destruct e as [| p | p]; cbn [Qnum Qden inject_Z].
  - now rewrite Z.quot_1_r, Z.mul_1_r.
  - now rewrite Z.quot_1_r, Z.shiftl_mul_pow2 by lia.
  - rewrite cond_Zopp_quot by discriminate. f_equal.
    change (Z.shiftl (Z.pos m) (Z.neg p)) with (Z.shiftr (Z.pos m) (Z.pos p)).
    rewrite Z.shiftr_div_pow2 by lia.
    rewrite Z.quot_div_nonneg by lia. now rewrite pos_pow_Z.
Qed.

Lemma int_Ok_finite x z : int x = Ok z -> finite x = true.
Proof. destruct x; simpl; congruence. Qed.

Lemma nearest_even_opp q z : nearest_even_to q z -> nearest_even_to (- q) (- z).
Proof.
  unfold nearest_even_to. intros [H1 H2].
  assert (E : (Qabs (inject_Z (- z) - - q) == Qabs (inject_Z z - q))%Q).
  { rewrite <- (Qabs_opp (inject_Z z - q)). apply Qabs_wd.
    rewrite inject_Z_opp. ring. }
  split.
  - now rewrite E.
  - intros H. rewrite Z.even_opp. apply H2. now rewrite <- E.
Qed.

Lemma nearest_even_shift m p :
  0 <= m -> nearest_even_to (Qmake m (2 ^ p)) (nearest_even m (Zneg p)).
Proof.
  intros Hm. unfold nearest_even.
  change (0 <=? Z.neg p) with false. cbv iota.
  change (- Z.neg p) with (Z.pos p).
  rewrite Z.shiftr_div_pow2 by lia.
  assert (HD : 0 < 2 ^ Z.pos p) by (apply Z.pow_pos_nonneg; lia).
  pose proof (Z.div_mod m (2 ^ Z.pos p) ltac:(lia)) as Hdm.
  pose proof (Z.mod_pos_bound m (2 ^ Z.pos p) HD) as Hr.
  set (D := 2 ^ Z.pos p) in *. set (q := m / D) in *. set (r := m mod D) in *.
  assert (Hq : forall z, (inject_Z z - Qmake m (2 ^ p) == Qmake (z * D - m) (2 ^ p))%Q).
  { intros z. unfold Qeq, Qminus, Qplus, Qopp, inject_Z. cbn [Qnum Qden].
    rewrite pos_pow_Z. fold D. rewrite !Pos2Z.inj_mul, pos_pow_Z. fold D. ring. }
  assert (Habs : forall z,
             (Qabs (inject_Z z - Qmake m (2 ^ p)) <= 1 # 2)%Q <-> 2 * Z.abs (z * D - m) <= D).
  { intros z. rewrite (Qabs_wd _ _ (Hq z)).
    unfold Qle, Qabs. cbn [Qnum Qden]. rewrite pos_pow_Z. fold D.
    generalize (z * D - m). intros t. lia. }
  assert (Heq : forall z,
             (Qabs (inject_Z z - Qmake m (2 ^ p)) == 1 # 2)%Q <-> 2 * Z.abs (z * D - m) = D).
  { intros z. rewrite (Qabs_wd _ _ (Hq z)).
    unfold Qeq, Qabs. cbn [Qnum Qden]. rewrite pos_pow_Z. fold D.
    generalize (z * D - m). intros t. lia. }
  clearbody q r. clearbody D.
  assert (E0 : q * D - m = - r) by (rewrite Hdm; ring).
  assert (E1 : (q + 1) * D - m = D - r) by (rewrite Hdm; ring).
  unfold nearest_even_to.
  destruct (2 * r ?= D) eqn:C.
  - apply Z.compare_eq in C. destruct (Z.even q) eqn:Ev.
    + split; [apply Habs; rewrite E0; lia | intros _; exact Ev].
    + split; [apply Habs; rewrite E1; lia |]. intros _.
      rewrite Z.even_add, Ev. reflexivity.
  - rewrite Z.compare_lt_iff in C. split; [apply Habs; rewrite E0; lia |].
    intros H. apply Heq in H. rewrite E0 in H. lia.
  - rewrite Z.compare_gt_iff in C. split; [apply Habs; rewrite E1; lia |].
    intros H. apply Heq in H. rewrite E1 in H. lia.
Qed.

Lemma nearest_even_exact z : nearest_even_to (inject_Z z) z.
Proof.
  assert (E : (Qabs (inject_Z z - inject_Z z) == 0)%Q).
  { assert (E0 : (inject_Z z - inject_Z z == 0)%Q) by ring.
    now rewrite (Qabs_wd _ _ E0). }
  unfold nearest_even_to. rewrite E. split; [discriminate |].
  intros H. discriminate H.
Qed.

Lemma round_finite x z : round x = Ok z -> nearest_even_to (F2Q x) z.
Proof.
  destruct x as [s | s | | s m e]; try discriminate; intros H; inversion H; subst.
  - apply (nearest_even_exact 0).
  - assert (Hpos : nearest_even_to (F2Q (S754_finite false m e))
                                   (nearest_even (Z.pos m) e)).
    { unfold F2Q. destruct e as [| p | p]; cbn [cond_Zopp].
      - unfold nearest_even. change (0 <=? 0) with true. cbv iota.
        rewrite Z.shiftl_mul_pow2 by lia. apply nearest_even_exact.
      - unfold nearest_even. change (0 <=? Z.pos p) with true. cbv iota.
        rewrite Z.shiftl_mul_pow2 by lia. apply nearest_even_exact.
      - apply nearest_even_shift. lia. }
    destruct s; [| exact Hpos].
    apply nearest_even_opp in Hpos.
    unfold F2Q in *. destruct e as [| p | p]; cbn [cond_Zopp] in *.
    + exact Hpos.
    + exact Hpos.
    + exact Hpos.
Qed.

(** ** Multiplying a float by 64 is exact *)

Lemma iter_pos_nat {A : Type} (f : A -> A) p x :
  @SpecFloat.iter_pos A f p x = @Nat.iter (Pos.to_nat p) A f x.
Proof.
  revert x. induction p as [p IH | p IH |]; intros x; cbn [SpecFloat.iter_pos].
  - rewrite !IH, Pos2Nat.inj_xI, Nat.iter_succ_r, <- Nat.iter_add.
    f_equal. lia.
  - rewrite !IH, Pos2Nat.inj_xO, <- Nat.iter_add. f_equal. lia.
  - reflexivity.
Qed.

Lemma shr_1_double m :
  0 <= m ->
  shr_1 (Build_shr_record (2 * m) false false) = Build_shr_record m false false.
Proof. intros H. destruct m as [| p | p]; [reflexivity | reflexivity | lia]. Qed.

Lemma iter_shr_1_exact n m :
  0 <= m ->
  @Nat.iter n _ shr_1 (Build_shr_record (m * 2 ^ Z.of_nat n) false false)
  = Build_shr_record m false false.
Proof.
  intros Hm. revert m Hm. induction n as [| n IH]; intros m Hm.
  - simpl. now rewrite Z.mul_1_r.
  - rewrite Nat.iter_succ_r.
    replace (m * 2 ^ Z.of_nat (S n)) with (2 * (m * 2 ^ Z.of_nat n))
      by (rewrite Nat2Z.inj_succ, Z.pow_succ_r by lia; ring).
    rewrite shr_1_double by (apply Z.mul_nonneg_nonneg; [lia | apply Z.pow_nonneg; lia]).
    now apply IH.
Qed.

(** Shifting out [n] zero bits loses nothing. *)
Lemma shr_exact m e n :
  0 <= m -> 0 < n ->
  shr (Build_shr_record (m * 2 ^ n) false false) e n
  = (Build_shr_record m false false, e + n).
Proof.
  intros Hm Hn. destruct n as [| p | p]; try lia.
  unfold shr. rewrite iter_pos_nat. f_equal.
  rewrite <- (positive_nat_Z p) at 1. now apply iter_shr_1_exact.
Qed.

Lemma digits2_log2 m : Zpos (digits2_pos m) = Z.log2 (Zpos m) + 1.
Proof.
  assert (E : forall p, digits2_pos p = Pos.size p).
  { induction p as [p IH | p IH |]; simpl; now rewrite ?IH. }
  rewrite E. destruct m; simpl; lia.
Qed.

Lemma Zdigits2_mul_pow2 m k :
  0 <= k -> Zdigits2 (Zpos m * 2 ^ k) = Zpos (digits2_pos m) + k.
Proof.
  intros Hk.
  assert (Hp : 0 < Zpos m * 2 ^ k) by (apply Z.mul_pos_pos; [lia | apply Z.pow_pos_nonneg; lia]).
  destruct (Zpos m * 2 ^ k) as [| q | q] eqn:E; try lia.
  unfold Zdigits2. rewrite !digits2_log2, <- E.
  rewrite Z.log2_mul_pow2 by lia. lia.
Qed.

Lemma float_64 : float_of_int 64 = S754_finite false (2 ^ 52) (-46).
Proof. reflexivity. Qed.

(** The product of a valid finite float and 64: the mantissa is padded or
    kept, the exponent moves by 6, and nothing is rounded away. *)
Lemma fmul_64_finite s m e :
  bounded prec emax m e = true ->
  let fe := fexp prec emax (Zpos (digits2_pos m) + e + 6) in
  0 <= e + 6 - fe /\
  fmul_int (S754_finite s m e) 64
  = if fe <=? emax - prec
    then S754_finite s (Z.to_pos (Zpos m * 2 ^ (e + 6 - fe))) fe
    else S754_infinity s.
Proof.
  intros Hb fe.
  unfold bounded, canonical_mantissa in Hb.
  apply andb_prop in Hb as [Hc He]. apply Z.eqb_eq in Hc. apply Z.leb_le in He.
  set (dm := Zpos (digits2_pos m)) in *.
  assert (Hdm : 0 < dm) by (unfold dm; lia).
  unfold fexp, emin, prec, emax in Hc, He.
  assert (Hfe : fe = Z.max (dm + e - 47) (-1074)).
  { unfold fe, fexp, emin, prec, emax. lia. }
  assert (Hn : 0 < fe - (e - 46) <= 52) by lia.
  split; [lia |].
  unfold fmul_int, fmul. rewrite float_64. cbn [SFmul].
  rewrite xorb_false_r, Pos2Z.inj_mul.
  change (Z.pos (2 ^ 52)) with (2 ^ 52).
  unfold binary_round_aux, shr_fexp.
  rewrite Zdigits2_mul_pow2 by lia. fold dm.
  replace (fexp prec emax (dm + 52 + (e + -46)) - (e + -46)) with (fe - (e - 46))
    by (unfold fe; replace (dm + 52 + (e + -46)) with (dm + e + 6) by lia; lia).
  set (n := fe - (e - 46)) in *.
  replace (Z.pos m * 2 ^ 52) with (Z.pos m * 2 ^ (52 - n) * 2 ^ n)
    by (rewrite <- Z.mul_assoc, <- Z.pow_add_r by lia; do 2 f_equal; lia).
  cbn [shr_record_of_loc].
  assert (Hm' : 0 < Z.pos m * 2 ^ (52 - n))
    by (apply Z.mul_pos_pos; [lia | apply Z.pow_pos_nonneg; lia]).
  rewrite shr_exact by lia.
  cbn [shr_m loc_of_shr_record round_nearest_even shr_record_of_loc].
  rewrite Zdigits2_mul_pow2 by lia. fold dm.
  replace (fexp prec emax (dm + (52 - n) + (e + -46 + n)) - (e + -46 + n)) with 0
    by (unfold fexp, emin, prec, emax; lia).
  cbn [shr shr_m].
  replace (e + -46 + n) with fe by lia.
  replace (e + 6 - fe) with (52 - n) by lia.
  destruct (Z.pos m * 2 ^ (52 - n)) as [| q | q] eqn:E; try lia.
  reflexivity.
Qed.

Lemma Qpow2_nonneg e : 0 <= e -> ((2 # 1) ^ e == inject_Z (2 ^ e))%Q.
Proof. intros H. now rewrite Zpower_Qpower. Qed.

Lemma Qpow2_neg p : ((2 # 1) ^ Zneg p == 1 # 2 ^ p)%Q.
Proof.
  change ((2 # 1) ^ Zneg p)%Q with (/ (2 # 1) ^ Zpos p)%Q.
  rewrite Qpow2_nonneg by lia. rewrite <- pos_pow_Z. reflexivity.
Qed.

(** [F2Q] is [(-1)^s * m * 2^e]. *)
Lemma F2Q_finite s m e :
  (F2Q (S754_finite s m e) == inject_Z (cond_Zopp s (Zpos m)) * (2 # 1) ^ e)%Q.
Proof.
  unfold F2Q. destruct e as [| p | p].
  - rewrite Z.mul_1_r. change ((2 # 1) ^ 0)%Q with 1%Q. ring.
  - rewrite Qpow2_nonneg by lia. rewrite <- inject_Z_mult.
    destruct s; cbn [cond_Zopp]; [| reflexivity].
    now rewrite Z.mul_opp_l.
  - rewrite Qpow2_neg. unfold Qeq, Qmult, inject_Z. cbn [Qnum Qden].
    rewrite Pos.mul_1_l. ring.
Qed.

Lemma F2Q_fmul_64 w :
  valid_binary prec emax w = true ->
  finite (fmul_int w 64) = true ->
  (F2Q (fmul_int w 64) == 64 * F2Q w)%Q.
Proof.
  destruct w as [s | s | | s m e]; try discriminate.
  - intros _ _. reflexivity.
  - cbn [valid_binary]. intros Hb Hf.
    destruct (fmul_64_finite s m e Hb) as [Hk E]. cbv zeta in Hk, E.
    set (fe := fexp prec emax (Zpos (digits2_pos m) + e + 6)) in *.
    rewrite E in Hf |- *.
    destruct (fe <=? emax - prec); [| discriminate Hf].
    rewrite !F2Q_finite.
    assert (Hp : 0 < Zpos m * 2 ^ (e + 6 - fe))
      by (apply Z.mul_pos_pos; [lia | apply Z.pow_pos_nonneg; lia]).
    rewrite Z2Pos.id by exact Hp.
    assert (Hs : cond_Zopp s (Z.pos m * 2 ^ (e + 6 - fe))
                 = cond_Zopp s (Z.pos m) * 2 ^ (e + 6 - fe)).
    { destruct s; cbn [cond_Zopp]; [now rewrite Z.mul_opp_l | reflexivity]. }
    rewrite Hs, inject_Z_mult, <- Qpow2_nonneg by lia.
    assert (H2 : ~ (2 # 1 == 0)%Q) by (intros H; discriminate H).
    assert (Hpow : ((2 # 1) ^ (e + 6 - fe) * (2 # 1) ^ fe == 64 * (2 # 1) ^ e)%Q).
    { rewrite <- Qpower_plus by exact H2.
      replace (e + 6 - fe + fe) with (6 + e) by lia.
      rewrite Qpower_plus by exact H2. reflexivity. }
    rewrite <- Qmult_assoc, Hpow. ring.
Qed.

Lemma Qtrunc_wd q1 q2 : (q1 == q2)%Q -> Qtrunc q1 = Qtrunc q2.
Proof.
  destruct q1 as [n1 d1], q2 as [n2 d2]. unfold Qeq, Qtrunc. cbn [Qnum Qden].
  intros H.
  rewrite <- (Z.quot_mul_cancel_r n1 (Zpos d1) (Zpos d2)) by discriminate.
  rewrite <- (Z.quot_mul_cancel_r n2 (Zpos d2) (Zpos d1)) by discriminate.
  rewrite H. f_equal. apply Z.mul_comm.
Qed.

(** ** Requests *)

Lemma restrict_ext {Tensor : Type} (o1 o2 : list string) (d : dict Tensor) :
  (forall k, In k (keys d) -> contains o1 k = contains o2 k) ->
  restrict o1 d = restrict o2 d.
Proof.
  unfold restrict. induction d as [| [k v] d IH]; intros H; [reflexivity |].
  cbn [List.filter fst]. rewrite (H k) by now left.
  rewrite IH; [reflexivity |]. intros k' Hk'. apply H. now right.
Qed.

Lemma contains_ext o1 o2 k :
  (In k o1 <-> In k o2) -> contains o1 k = contains o2 k.
Proof.
  intros H. destruct (contains o1 k) eqn:E1, (contains o2 k) eqn:E2; try reflexivity.
  - apply contains_In, H, contains_In in E1. congruence.
  - apply contains_In, H, contains_In in E2. congruence.
Qed.

Section Requests.
Context {Tensor : Type}.
Variable run : Layer -> Tensor -> result Tensor.

(** A run with another request that asks for the same stages returns
  the same mapping. *)
Lemma forward_of_same_request v self outs' x called called' r :
(forall k, In k stage_names -> (In k (out_features self) <-> In k outs')) ->
forward_of v run self x called = (called', Ok r) ->
forward_of v run (with_out_features self outs') x called = (called', Ok r).
Proof.
intros Hsame H. apply forward_of_Ok in H as (full & Hfull & -> & ->).
apply forward_of_Ok. exists full. split; [now apply runs_all_with |].
split; [reflexivity |]. cbn [with_out_features out_features].
apply restrict_ext. intros k Hk. apply contains_ext, Hsame.
now rewrite <- (runs_all_keys run self x full).
Qed.

Lemma forward_of_keys v self x called called' r :
forward_of v run self x called = (called', Ok r) ->
keys r = List.filter (contains (out_features self)) stage_names.
Proof.
intros H. apply forward_of_Ok in H as (full & Hfull & _ & ->).
unfold restrict. rewrite keys_filter. now rewrite (runs_all_keys run self x full).
Qed.
End Requests.

(** * The claims *)

(** ** C1 *)

(** C1, as stated, fails: with width_multiplier 0.74609375 (= 191/256) the
    product with 64 is 47.75; the constructor derives the base channel
    count 47, while rounding gives 48. *)
Lemma C1_counterexample :
  let w := float_of 191 (-8) in
  (F2Q (fmul_int w 64) == 191 # 4)%Q /\
  round (fmul_int w 64) = Ok 48 /\
  exists built self,
    CSPDarknet.__init__ (float_of_int 1) w CSPDarknet.default_out_features "silu" false []
    = (built, Ok self) /\
    stem self = Single (Focus 3 47 3 "silu") /\
    Ok 47 <> round (fmul_int w 64).
Proof.
  cbv zeta. split; [reflexivity |]. split; [reflexivity |].
  eexists. eexists. split; [vm_compute; reflexivity |].
  split; [reflexivity |]. discriminate.
Qed.

(** C1 (amended): for every width_multiplier [w] and depth_multiplier [d]
    the CSPDarknet constructor accepts, the base channel count is
    [int(w * 64)], the float product cut towards zero (for a valid float
    [w] that product is exactly 64 w), and the base block-repeat count is
    [max(round(d * 3), 1)], where [round] takes the float product to a
    nearest integer, the even one on a tie.  The stem takes the base
    channel count as its output width and dark2 repeats its CSP block
    base-depth times. *)
Theorem C1_base_channels_and_depth d w outs act dw built self :
  CSPDarknet.__init__ d w outs act dw [] = (built, Ok self) ->
  exists base_channels r,
    int (fmul_int w 64) = Ok base_channels /\
    round (fmul_int d 3) = Ok r /\
    stem self = Single (Focus 3 base_channels 3 act) /\
    csp_repeats (dark2 self) = [Z.max r 1] /\
    base_channels = Qtrunc (F2Q (fmul_int w 64)) /\
    (valid_binary prec emax w = true -> base_channels = Qtrunc (64 * F2Q w)) /\
    nearest_even_to (F2Q (fmul_int d 3)) r.
Proof.
  intros H. apply CSPDarknet_init_inv in H as (_ & bc & r & Hc & Hr & -> & _).
  exists bc, r. split; [exact Hc |]. split; [exact Hr |].
  split; [reflexivity |]. split; [reflexivity |].
  pose proof (int_Ok_finite _ _ Hc) as Hf.
  assert (Hbc : bc = Qtrunc (F2Q (fmul_int w 64))).
  { rewrite (int_finite _ Hf) in Hc. congruence. }
  split; [exact Hbc |]. split.
  - intros Hv. rewrite Hbc. apply Qtrunc_wd. now apply F2Q_fmul_64.
  - now apply round_finite.
Qed.

Lemma C1_base_channels_and_depth_witness :
  exists base_channels r,
    int (fmul_int (float_of 191 (-8)) 64) = Ok base_channels /\
    round (fmul_int (float_of 133 (-7)) 3) = Ok r /\
    stem (csp_net 47 3 ["dark5"] "silu" false) = Single (Focus 3 base_channels 3 "silu") /\
    csp_repeats (dark2 (csp_net 47 3 ["dark5"] "silu" false)) = [Z.max r 1] /\
    base_channels = Qtrunc (F2Q (fmul_int (float_of 191 (-8)) 64)) /\
    (valid_binary prec emax (float_of 191 (-8)) = true ->
     base_channels = Qtrunc (64 * F2Q (float_of 191 (-8)))) /\
    nearest_even_to (F2Q (fmul_int (float_of 133 (-7)) 3)) r.
Proof.
  apply (C1_base_channels_and_depth
           (float_of 133 (-7)) (float_of 191 (-8)) ["dark5"] "silu" false
           (all_blocks (csp_net 47 3 ["dark5"] "silu" false))).
  vm_compute. reflexivity.
Defined.

(** ** C2 *)

(** C2: for every depth_multiplier [d] the CSPDarknet constructor accepts,
    the CSP blocks of dark2, dark3, dark4 and dark5 repeat base_depth,
    3 base_depth, 3 base_depth and base_depth times, where base_depth is
    [max(round(d * 3), 1)]. *)
Theorem C2_csp_repeat_counts d w outs act dw built self :
  CSPDarknet.__init__ d w outs act dw [] = (built, Ok self) ->
  exists r,
    round (fmul_int d 3) = Ok r /\
    let base_depth := Z.max r 1 in
    csp_repeats (dark2 self) = [base_depth] /\
    csp_repeats (dark3 self) = [3 * base_depth] /\
    csp_repeats (dark4 self) = [3 * base_depth] /\
    csp_repeats (dark5 self) = [base_depth].
Proof.
  intros H. apply CSPDarknet_init_inv in H as (_ & bc & r & _ & Hr & -> & _).
  exists r. split; [exact Hr |]. cbv zeta.
  unfold csp_net, csp_repeats. cbn [dark2 dark3 dark4 dark5 blocks flat_map app].
  rewrite (Z.mul_comm (Z.max r 1) 3). auto.
Qed.

Lemma C2_csp_repeat_counts_witness :
  exists r,
    round (fmul_int (float_of 133 (-7)) 3) = Ok r /\
    let base_depth := Z.max r 1 in
    csp_repeats (dark2 (csp_net 64 3 ["dark3"] "silu" true)) = [base_depth] /\
    csp_repeats (dark3 (csp_net 64 3 ["dark3"] "silu" true)) = [3 * base_depth] /\
    csp_repeats (dark4 (csp_net 64 3 ["dark3"] "silu" true)) = [3 * base_depth] /\
    csp_repeats (dark5 (csp_net 64 3 ["dark3"] "silu" true)) = [base_depth].
Proof.
  apply (C2_csp_repeat_counts
           (float_of 133 (-7)) (float_of_int 1) ["dark3"] "silu" true
           (all_blocks (csp_net 64 3 ["dark3"] "silu" true))).
  vm_compute. reflexivity.
Defined.

(** ** C3 *)

(** C3: a Darknet of depth 21 has 1, 2, 2 and 1 residual layers in dark2,
    dark3, dark4 and dark5, one of depth 53 has 2, 8, 8 and 4; the counts
    are the entry of the fixed table [depth2blocks] under the depth. *)
Theorem C3_darknet_repeat_counts i s outs :
  outs <> [] ->
  Darknet.lookup Darknet.depth2blocks 21 = Ok [1; 2; 2; 1] /\
  Darknet.lookup Darknet.depth2blocks 53 = Ok [2; 8; 8; 4] /\
  (exists built self,
      Darknet.__init__ 21 i s outs [] = (built, Ok self) /\
      map res_repeats [dark2 self; dark3 self; dark4 self; dark5 self] = [1; 2; 2; 1]) /\
  (exists built self,
      Darknet.__init__ 53 i s outs [] = (built, Ok self) /\
      map res_repeats [dark2 self; dark3 self; dark4 self; dark5 self] = [2; 8; 8; 4]).
Proof.
  intros Ho. split; [reflexivity |]. split; [reflexivity |]. split.
  - eexists. eexists. split.
    + now apply (Darknet_init_good_depth 21 i s outs 1 2 2 1).
    + reflexivity.
  - eexists. eexists. split.
    + now apply (Darknet_init_good_depth 53 i s outs 2 8 8 4).
    + reflexivity.
Qed.

Lemma C3_darknet_repeat_counts_witness :
  Darknet.lookup Darknet.depth2blocks 21 = Ok [1; 2; 2; 1] /\
  Darknet.lookup Darknet.depth2blocks 53 = Ok [2; 8; 8; 4] /\
  (exists built self,
      Darknet.__init__ 21 3 32 ["dark3"; "dark4"; "dark5"] [] = (built, Ok self) /\
      map res_repeats [dark2 self; dark3 self; dark4 self; dark5 self] = [1; 2; 2; 1]) /\
  (exists built self,
      Darknet.__init__ 53 3 32 ["dark3"; "dark4"; "dark5"] [] = (built, Ok self) /\
      map res_repeats [dark2 self; dark3 self; dark4 self; dark5 self] = [2; 8; 8; 4]).
Proof.
  apply (C3_darknet_repeat_counts 3 32 ["dark3"; "dark4"; "dark5"]). discriminate.
Defined.

(** ** C4 *)

(** C4: take a network of either class constructed with the requested
    names [outs], and an input on which no stage module raises.  Then
    [forward] returns a mapping whose keys are, as a set, the five stage
    names intersected with [outs]; listing the request in another order,
    or adding names that are no stage names, makes neither construction
    nor evaluation fail and leaves the returned mapping as it is. *)
Theorem C4_forward_keys {Tensor : Type} (run : Layer -> Tensor -> result Tensor)
        v outs built self x called full :
  constructed v outs built self ->
  runs_all run self x full ->
  exists r,
    forward_of v run self x called = (called ++ stage_names, Ok r) /\
    list_to_set (keys r) =@{gset string} list_to_set stage_names ∩ list_to_set outs /\
    (forall outs',
        Permutation outs outs' ->
        constructed v outs' built (with_out_features self outs') /\
        forward_of v run (with_out_features self outs') x called
        = (called ++ stage_names, Ok r)) /\
    (forall others,
        Forall (fun k => ~ In k stage_names) others ->
        constructed v (outs ++ others) built (with_out_features self (outs ++ others)) /\
        forward_of v run (with_out_features self (outs ++ others)) x called
        = (called ++ stage_names, Ok r)).
Proof.
  intros Hc Hfull. destruct (constructed_out_features _ _ _ _ Hc) as [Eo Ho].
  assert (Hf : forward_of v run self x called
               = (called ++ stage_names, Ok (restrict (out_features self) full))).
  { apply forward_of_Ok. now exists full. }
  exists (restrict (out_features self) full).
  split; [exact Hf |]. split; [| split].
  - rewrite (forward_of_keys run _ _ _ _ _ _ Hf), Eo.
    apply set_eq. intros k.
    rewrite elem_of_intersection, !elem_of_list_to_set, !list_elem_of_In.
    rewrite filter_In, contains_In. tauto.
  - intros outs' Hp. split.
    + apply (constructed_with _ _ _ _ _ Hc). intros ->.
      apply Permutation_sym, Permutation_nil in Hp. congruence.
    + apply forward_of_same_request; [| exact Hf]. intros k _. rewrite Eo.
      split; apply Permutation_in; [exact Hp | now apply Permutation_sym].
  - intros others Hj. split.
    + apply (constructed_with _ _ _ _ _ Hc). destruct outs; [congruence | discriminate].
    + apply forward_of_same_request; [| exact Hf]. intros k Hk. rewrite Eo.
      rewrite in_app_iff. split; [tauto |]. intros [H | H]; [exact H |].
      rewrite Forall_forall in Hj. exfalso. apply (Hj k); [| exact Hk].
      now apply list_elem_of_In.
Qed.

Lemma C4_forward_keys_witness :
  exists r,
    forward_of IsDarknet count_run (darknet_net 3 32 1 2 2 1 ["dark5"; "head"; "dark3"]) 0 []
    = ([] ++ stage_names, Ok r) /\
    list_to_set (keys r)
    =@{gset string} list_to_set stage_names ∩ list_to_set ["dark5"; "head"; "dark3"] /\
    (forall outs',
        Permutation ["dark5"; "head"; "dark3"] outs' ->
        constructed IsDarknet outs'
          (all_blocks (darknet_net 3 32 1 2 2 1 ["dark5"; "head"; "dark3"]))
          (with_out_features (darknet_net 3 32 1 2 2 1 ["dark5"; "head"; "dark3"]) outs') /\
        forward_of IsDarknet count_run
          (with_out_features (darknet_net 3 32 1 2 2 1 ["dark5"; "head"; "dark3"]) outs')
          0 [] = ([] ++ stage_names, Ok r)) /\
    (forall others,
        Forall (fun k => ~ In k stage_names) others ->
        constructed IsDarknet (["dark5"; "head"; "dark3"] ++ others)
          (all_blocks (darknet_net 3 32 1 2 2 1 ["dark5"; "head"; "dark3"]))
          (with_out_features (darknet_net 3 32 1 2 2 1 ["dark5"; "head"; "dark3"])
                             (["dark5"; "head"; "dark3"] ++ others)) /\
        forward_of IsDarknet count_run
          (with_out_features (darknet_net 3 32 1 2 2 1 ["dark5"; "head"; "dark3"])
                             (["dark5"; "head"; "dark3"] ++ others))
          0 [] = ([] ++ stage_names, Ok r)).
Proof.
  apply (C4_forward_keys count_run IsDarknet ["dark5"; "head"; "dark3"]
           (all_blocks (darknet_net 3 32 1 2 2 1 ["dark5"; "head"; "dark3"]))
           (darknet_net 3 32 1 2 2 1 ["dark5"; "head"; "dark3"]) 0 []
           [("stem", 3); ("dark2", 5); ("dark3", 8); ("dark4", 11); ("dark5", 18)]).
  - apply (constructed_Darknet 21 3 32). vm_compute. reflexivity.
  - apply (runs_all_intro count_run _ 0 3 5 8 11 18); reflexivity.
Defined.

(** ** C5 *)

(** C5, as stated, fails for Darknet: in the depth-21 network with the
    default stem width 32, dark4 gives 512 channels and dark5, after its
    pooling tail, gives 512 again, not 1024 = 32 x 32. *)
Lemma C5_counterexample :
  exists built self,
    Darknet.__init__ 21 3 32 Darknet.default_out_features [] = (built, Ok self) /\
    stage_out (dark4 self) = Some 512 /\
    stage_out (dark5 self) = Some 512 /\
    stage_out (dark5 self) <> Some (32 * 32) /\
    stage_out (dark5 self) <> option_map (Z.mul 2) (stage_out (dark4 self)).
Proof.
  eexists. eexists. split; [vm_compute; reflexivity |].
  repeat split; try reflexivity; vm_compute; discriminate.
Qed.

(** C5 (amended): in every constructed network every block takes as many
    channels as the block before it gives.  In a Darknet the stages give
    2, 4, 8, 16 and 16 times stem_out_channels: the count doubles from
    stem to dark2, dark3 and dark4, and dark5 ends, after its pooling
    tail, at the width of dark4.  In a CSPDarknet the stages give 1, 2, 4,
    8 and 16 times base_channels: the count doubles at each of the four
    transitions. *)
Theorem C5_channel_wiring :
  (forall depth i s outs built self,
      Darknet.__init__ depth i s outs [] = (built, Ok self) ->
      wired i (all_blocks self) = true /\
      map stage_out (stages self)
      = [Some (2 * s); Some (4 * s); Some (8 * s); Some (16 * s); Some (16 * s)]) /\
  (forall d w outs act dw built self,
      CSPDarknet.__init__ d w outs act dw [] = (built, Ok self) ->
      exists base_channels,
        int (fmul_int w 64) = Ok base_channels /\
        wired 3 (all_blocks self) = true /\
        map stage_out (stages self)
        = [Some base_channels; Some (2 * base_channels); Some (4 * base_channels);
           Some (8 * base_channels); Some (16 * base_channels)]).
Proof.
  split.
  - intros depth i s outs built self H.
    apply Darknet_init_inv in H as (_ & n0 & n1 & n2 & n3 & _ & -> & _).
    split; [apply darknet_net_wired | apply darknet_net_stage_outs].
  - intros d w outs act dw built self H.
    apply CSPDarknet_init_inv in H as (_ & bc & r & Hc & _ & -> & _).
    exists bc. split; [exact Hc |].
    split; [apply csp_net_wired | apply csp_net_stage_outs].
Qed.

Lemma C5_channel_wiring_witness :
  (wired 3 (all_blocks (darknet_net 3 32 2 8 8 4 ["dark5"])) = true /\
   map stage_out (stages (darknet_net 3 32 2 8 8 4 ["dark5"]))
   = [Some 64; Some 128; Some 256; Some 512; Some 512]) /\
  (exists base_channels,
      int (fmul_int (float_of 3 (-3)) 64) = Ok base_channels /\
      wired 3 (all_blocks (csp_net 24 1 ["dark5"] "silu" false)) = true /\
      map stage_out (stages (csp_net 24 1 ["dark5"] "silu" false))
      = [Some base_channels; Some (2 * base_channels); Some (4 * base_channels);
         Some (8 * base_channels); Some (16 * base_channels)]).
Proof.
  split.
  - apply (proj1 C5_channel_wiring 53 3 32 ["dark5"]
             (all_blocks (darknet_net 3 32 2 8 8 4 ["dark5"]))).
    vm_compute. reflexivity.
  - apply (proj2 C5_channel_wiring (float_of 33 (-7)) (float_of 3 (-3)) ["dark5"]
             "silu" false (all_blocks (csp_net 24 1 ["dark5"] "silu" false))).
    vm_compute. reflexivity.
Defined.

(** ** C6 *)

(** C6: with an empty request both constructors raise, and the list of
    blocks built is what it was before the call: no block has been
    constructed. *)
Theorem C6_empty_request_fails_first built :
  (forall depth i s,
      Darknet.__init__ depth i s [] built
      = (built, Raise (AssertionError (Some "please provide output features of Darknet")))) /\
  (forall d w act dw,
      CSPDarknet.__init__ d w [] act dw built
      = (built, Raise (AssertionError (Some "please provide output features of Darknet")))).
Proof. split; reflexivity. Qed.

(** ** C7 *)

(** C7: Darknet construction raises an assertion error for every depth
    other than 21 and 53, whatever the other arguments; with depth 21 or
    53 and a non-empty request it returns a network. *)
Theorem C7_darknet_depth depth i s outs built :
  (depth <> 21 -> depth <> 53 ->
   exists built' msg,
     Darknet.__init__ depth i s outs built = (built', Raise (AssertionError msg))) /\
  (depth = 21 \/ depth = 53 -> outs <> [] ->
   exists built' self,
     Darknet.__init__ depth i s outs built = (built', Ok self)).
Proof.
  split.
  - intros H21 H53. destruct outs as [| o outs].
    + eexists. eexists. apply Darknet_init_empty.
    + eexists. eexists. apply Darknet_init_bad_depth; [discriminate | assumption ..].
  - intros [-> | ->] Ho; eexists; eexists.
    + now apply (Darknet_init_good_depth 21 i s outs 1 2 2 1).
    + now apply (Darknet_init_good_depth 53 i s outs 2 8 8 4).
Qed.

Lemma C7_darknet_depth_witness :
  (exists built' msg,
      Darknet.__init__ 40 3 32 ["dark5"] [] = (built', Raise (AssertionError msg))) /\
  (exists built' self, Darknet.__init__ 21 3 32 ["dark5"] [] = (built', Ok self)) /\
  (exists built' self, Darknet.__init__ 53 3 32 ["dark5"] [] = (built', Ok self)).
Proof.
  split; [| split].
  - apply (proj1 (C7_darknet_depth 40 3 32 ["dark5"] [])); lia.
  - apply (proj2 (C7_darknet_depth 21 3 32 ["dark5"] [])); [left; reflexivity | discriminate].
  - apply (proj2 (C7_darknet_depth 53 3 32 ["dark5"] [])); [right; reflexivity | discriminate].
Defined.

(** ** C8 *)

(** C8: [forward] of either class returns a mapping exactly when all five
    stage modules have been called in the order stem, dark2, dark3, dark4,
    dark5, each on the output of the one before, and none has raised; the
    mapping is then the full five-stage mapping restricted to the
    requested names.  Which modules are called, and whether the call
    raises, does not depend on the request. *)
Theorem C8_forward_computes_all_then_filters
        {Tensor : Type} (run : Layer -> Tensor -> result Tensor) v self x called :
  (forall called' r,
      forward_of v run self x called = (called', Ok r) <->
      exists full,
        runs_all run self x full /\
        called' = called ++ ["stem"; "dark2"; "dark3"; "dark4"; "dark5"] /\
        r = restrict (out_features self) full) /\
  (forall outs,
      fst (forward_of v run (with_out_features self outs) x called)
      = fst (forward_of v run self x called)) /\
  (forall called' e,
      forward_of v run self x called = (called', Raise e) ->
      forall outs,
        forward_of v run (with_out_features self outs) x called = (called', Raise e)).
Proof.
  split; [| split].
  - intros called' r. apply forward_of_Ok.
  - intros outs. now rewrite forward_of_with.
  - intros called' e H outs. rewrite forward_of_with, H. reflexivity.
Qed.

Lemma C8_forward_computes_all_then_filters_witness :
  (exists full,
      runs_all count_run (csp_net 64 3 ["dark4"] "silu" false) 0 full /\
      stage_names = [] ++ ["stem"; "dark2"; "dark3"; "dark4"; "dark5"] /\
      [("dark4", 7)] = restrict ["dark4"] full) /\
  (forall outs,
      forward_of IsCSPDarknet short_run
        (with_out_features (with_out_features (csp_net 64 3 ["dark4"] "silu" false) ["stem"])
                           outs) 0 []
      = (stage_names, Raise ValueError)).
Proof.
  split.
  - apply (proj1 (C8_forward_computes_all_then_filters
                    count_run IsCSPDarknet (csp_net 64 3 ["dark4"] "silu" false) 0 [])).
    vm_compute. reflexivity.
  - apply (proj2 (proj2 (C8_forward_computes_all_then_filters
                           short_run IsCSPDarknet
                           (with_out_features (csp_net 64 3 ["dark4"] "silu" false) ["stem"])
                           0 []))).
    vm_compute. reflexivity.
Defined.

(** ** C9 *)

(** C9: with a non-empty request and a depth other than 21 and 53, the
    Darknet constructor raises only after it has built the three blocks of
    the stem, a stride-1 convolution and a stride-2 group layer; with an
    empty request it raises before it has built anything. *)
Theorem C9_depth_check_after_stem depth i s outs built :
  outs <> [] -> depth <> 21 -> depth <> 53 ->
  Darknet.__init__ depth i s outs built
  = (built ++ [BaseConv i s 3 1 "lrelu";
               BaseConv s (s * 2) 3 2 "lrelu";
               ResLayer (s * 2)],
     Raise (AssertionError None)) /\
  Darknet.__init__ depth i s [] built
  = (built, Raise (AssertionError (Some "please provide output features of Darknet"))).
Proof.
  intros Ho H21 H53. split.
  - now apply Darknet_init_bad_depth.
  - apply Darknet_init_empty.
Qed.

Lemma C9_depth_check_after_stem_witness :
  Darknet.__init__ 40 3 32 ["dark3"; "dark4"; "dark5"] []
  = ([] ++ [BaseConv 3 32 3 1 "lrelu"; BaseConv 32 (32 * 2) 3 2 "lrelu"; ResLayer (32 * 2)],
     Raise (AssertionError None)) /\
  Darknet.__init__ 40 3 32 [] []
  = ([], Raise (AssertionError (Some "please provide output features of Darknet"))).
Proof.
  apply (C9_depth_check_after_stem 40 3 32 ["dark3"; "dark4"; "dark5"] []);
    [discriminate | lia | lia].
Defined.

(** ** C10 *)

(** C10: the keys of a mapping that [forward] returns are the stage names
    stem, dark2, dark3, dark4, dark5, in this order, without those that
    were not requested; any other run of a network of either class whose
    request lists the same names in any order gives the same key
    sequence. *)
Theorem C10_forward_key_order
        {Tensor : Type} (run : Layer -> Tensor -> result Tensor)
        v outs built self x called called' r :
  constructed v outs built self ->
  forward_of v run self x called = (called', Ok r) ->
  keys r = List.filter (contains outs) ["stem"; "dark2"; "dark3"; "dark4"; "dark5"] /\
  (forall (run2 : Layer -> Tensor -> result Tensor) v2 outs2 built2 self2 x2 c2 c2' r2,
      Permutation outs outs2 ->
      constructed v2 outs2 built2 self2 ->
      forward_of v2 run2 self2 x2 c2 = (c2', Ok r2) ->
      keys r2 = keys r).
Proof.
  intros Hc Hf. destruct (constructed_out_features _ _ _ _ Hc) as [Eo _].
  assert (Hk : keys r = List.filter (contains outs) stage_names).
  { rewrite (forward_of_keys run _ _ _ _ _ _ Hf). now rewrite Eo. }
  split; [exact Hk |].
  intros run2 v2 outs2 built2 self2 x2 c2 c2' r2 Hp Hc2 Hf2.
  destruct (constructed_out_features _ _ _ _ Hc2) as [Eo2 _].
  rewrite (forward_of_keys run2 _ _ _ _ _ _ Hf2), Eo2, Hk.
  apply filter_ext. intros k. apply contains_ext.
  split; apply Permutation_in; [now apply Permutation_sym | exact Hp].
Qed.

Lemma C10_forward_key_order_witness :
  keys [("dark2", 5); ("dark3", 8); ("dark5", 18)]
  = List.filter (contains ["dark5"; "dark3"; "dark2"])
                ["stem"; "dark2"; "dark3"; "dark4"; "dark5"] /\
  (forall (run2 : Layer -> Z -> result Z) v2 outs2 built2 self2 x2 c2 c2' r2,
      Permutation ["dark5"; "dark3"; "dark2"] outs2 ->
      constructed v2 outs2 built2 self2 ->
      forward_of v2 run2 self2 x2 c2 = (c2', Ok r2) ->
      keys r2 = keys [("dark2", 5); ("dark3", 8); ("dark5", 18)]).
Proof.
  apply (C10_forward_key_order count_run IsDarknet ["dark5"; "dark3"; "dark2"]
           (all_blocks (darknet_net 3 32 1 2 2 1 ["dark5"; "dark3"; "dark2"]))
           (darknet_net 3 32 1 2 2 1 ["dark5"; "dark3"; "dark2"]) 0 [] stage_names).
  - apply (constructed_Darknet 21 3 32). vm_compute. reflexivity.
  - vm_compute. reflexivity.
Defined.

(** * Further properties of the code *)

(** ** The helpers of [Darknet] *)

(** X1: [make_group_layer] builds, in this order and nothing else, one
    3x3 convolution from [in_channels] to twice as many channels with the
    given stride, and [num_blocks] residual layers of the doubled width
    (none when [num_blocks] is zero or negative); the run is wired from
    [in_channels] and gives [2 * in_channels] channels. *)
Theorem X1_make_group_layer in_channels num_blocks stride built :
  exists rs,
    Darknet.make_group_layer in_channels num_blocks stride built
    = (built ++ BaseConv in_channels (in_channels * 2) 3 stride "lrelu" :: rs,
       Ok (BaseConv in_channels (in_channels * 2) 3 stride "lrelu" :: rs)) /\
    Z.of_nat (List.length rs) = Z.max num_blocks 0 /\
    List.Forall (fun b => b = ResLayer (in_channels * 2)) rs /\
    wired in_channels (BaseConv in_channels (in_channels * 2) 3 stride "lrelu" :: rs) = true /\
    chain_out in_channels (BaseConv in_channels (in_channels * 2) 3 stride "lrelu" :: rs)
    = in_channels * 2.
Proof.
  exists (repeat (ResLayer (in_channels * 2)) (Z.to_nat num_blocks)).
  split; [apply make_group_layer_spec |]. split; [| split; [| split]].
  - rewrite repeat_length. lia.
  - apply List.Forall_forall. intros b Hb. now apply repeat_spec in Hb.
  - apply wired_group.
  - apply chain_out_group.
Qed.

(** X2: given at least two filter counts [f0], [f1], [make_spp_block]
    builds exactly five blocks, convolutions with kernels 1, 3, 3, 1
    around one pooling block; whatever the counts are, each block takes
    what the one before gives, so the run is wired from [in_filters] and
    ends with [f0] channels.  Entries after the second are ignored. *)
Theorem X2_make_spp_block f0 f1 rest in_filters built :
  exists bs,
    Darknet.make_spp_block (f0 :: f1 :: rest) in_filters built = (built ++ bs, Ok bs) /\
    List.length bs = 5%nat /\
    conv_ksizes (Sequential bs) = [1; 3; 3; 1] /\
    conv_strides (Sequential bs) = [1; 1; 1; 1] /\
    nth_error bs 2 = Some (SPPBottleneck f1 f0 "lrelu") /\
    wired in_filters bs = true /\
    chain_out in_filters bs = f0 /\
    Darknet.make_spp_block (f0 :: f1 :: rest) in_filters built
    = Darknet.make_spp_block [f0; f1] in_filters built.
Proof.
  exists (spp f0 f1 in_filters).
  split.
  { unfold Darknet.make_spp_block, spp, bind, lift, new, ret, getitem. simpl.
    now rewrite <- !app_assoc. }
  repeat split.
  unfold spp. cbn [wired block_in block_out]. now rewrite !Z.eqb_refl.
Qed.

(** X3: with fewer than two filter counts [make_spp_block] raises
    [IndexError]: with none before any block is built, with one after the
    first convolution has been built. *)
Theorem X3_make_spp_block_short in_filters built :
  Darknet.make_spp_block [] in_filters built = (built, Raise IndexError) /\
  forall f0,
    Darknet.make_spp_block [f0] in_filters built
    = (built ++ [BaseConv in_filters f0 1 1 "lrelu"], Raise IndexError).
Proof. split; [reflexivity | intros f0; reflexivity]. Qed.

(** ** Construction *)

Lemma int_Raise x e :
  int x = Raise e -> finite x = false /\ (e = ValueError \/ e = OverflowError).
Proof. destruct x; simpl; intros H; inversion H; auto. Qed.

Lemma round_Raise x e :
  round x = Raise e -> finite x = false /\ (e = ValueError \/ e = OverflowError).
Proof. destruct x; simpl; intros H; inversion H; auto. Qed.

Lemma finite_int x : finite x = true -> exists z, int x = Ok z.
Proof. destruct x; simpl; try discriminate; eauto. Qed.

Lemma finite_round x : finite x = true -> exists z, round x = Ok z.
Proof. destruct x; simpl; try discriminate; eauto. Qed.

(** X4: a successful construction has built exactly the blocks of the
    network it returns, each once, in the order in which [forward] runs
    them: 18 blocks for a Darknet of depth 21, 34 for depth 53, and 10 for
    every CSPDarknet. *)
Theorem X4_built_blocks_are_the_network :
  (forall depth i s outs built built' self,
      Darknet.__init__ depth i s outs built = (built', Ok self) ->
      built' = built ++ all_blocks self /\
      List.length (all_blocks self) = (if (depth =? 21)%Z then 18%nat else 34%nat)) /\
  (forall d w outs act dw built built' self,
      CSPDarknet.__init__ d w outs act dw built = (built', Ok self) ->
      built' = built ++ all_blocks self /\
      List.length (all_blocks self) = 10%nat).
Proof.
  split.
  - intros depth i s outs built built' self H.
    apply Darknet_init_inv in H as (_ & n0 & n1 & n2 & n3 & Hd & -> & ->).
    split; [reflexivity |].
    destruct Hd as [[-> E] | [-> E]]; inversion E; subst; reflexivity.
  - intros d w outs act dw built built' self H.
    apply CSPDarknet_init_inv in H as (_ & bc & r & _ & _ & -> & ->).
    split; reflexivity.
Qed.

Lemma X4_built_blocks_are_the_network_witness :
  (all_blocks (darknet_net 3 32 2 8 8 4 ["dark5"])
   = [] ++ all_blocks (darknet_net 3 32 2 8 8 4 ["dark5"]) /\
   List.length (all_blocks (darknet_net 3 32 2 8 8 4 ["dark5"]))
   = (if (53 =? 21)%Z then 18%nat else 34%nat)) /\
  (all_blocks (csp_net 32 1 ["dark5"] "silu" false)
   = [] ++ all_blocks (csp_net 32 1 ["dark5"] "silu" false) /\
   List.length (all_blocks (csp_net 32 1 ["dark5"] "silu" false)) = 10%nat).
Proof.
  split.
  - apply (proj1 X4_built_blocks_are_the_network 53 3 32 ["dark5"] []).
    vm_compute. reflexivity.
  - apply (proj2 X4_built_blocks_are_the_network
             (float_of 33 (-7)) (float_of 1 (-1)) ["dark5"] "silu" false []).
    vm_compute. reflexivity.
Defined.



(** X6: the only ways in which Darknet construction fails are its two
    assertions: on an empty request, with nothing built, and on a depth
    other than 21 and 53, with the stem built.  Neither the table lookup
    nor the indexing of its entry can raise. *)
Theorem X6_darknet_failures depth i s outs built built' e :
  Darknet.__init__ depth i s outs built = (built', Raise e) ->
  (outs = [] /\ built' = built /\
   e = AssertionError (Some "please provide output features of Darknet")) \/
  (outs <> [] /\ depth <> 21 /\ depth <> 53 /\
   built' = built ++ [BaseConv i s 3 1 "lrelu"; BaseConv s (s * 2) 3 2 "lrelu";
                      ResLayer (s * 2)] /\
   e = AssertionError None).
Proof.
  intros H. destruct outs as [| o outs].
  - rewrite Darknet_init_empty in H. inversion H; subst. left. auto.
  - right. split; [discriminate |].
    destruct (Z.eq_dec depth 21) as [-> | N21].
    { rewrite (Darknet_init_good_depth 21 i s (o :: outs) 1 2 2 1) in H
        by (discriminate || reflexivity). discriminate. }
    destruct (Z.eq_dec depth 53) as [-> | N53].
    { rewrite (Darknet_init_good_depth 53 i s (o :: outs) 2 8 8 4) in H
        by (discriminate || reflexivity). discriminate. }
    rewrite Darknet_init_bad_depth in H by (assumption || discriminate).
    inversion H; subst. auto.
Qed.

Lemma X6_darknet_failures_witness :
  (["dark3"] = [] /\
   [BaseConv 3 32 3 1 "lrelu"; BaseConv 32 64 3 2 "lrelu"; ResLayer 64] = [] /\
   AssertionError None
   = AssertionError (Some "please provide output features of Darknet")) \/
  (["dark3"] <> [] /\ 19 <> 21 /\ 19 <> 53 /\
   [BaseConv 3 32 3 1 "lrelu"; BaseConv 32 64 3 2 "lrelu"; ResLayer 64]
   = [] ++ [BaseConv 3 32 3 1 "lrelu"; BaseConv 32 (32 * 2) 3 2 "lrelu";
            ResLayer (32 * 2)] /\
   AssertionError None = AssertionError None).
Proof.
  apply (X6_darknet_failures 19 3 32 ["dark3"] []). vm_compute. reflexivity.
Defined.

(** X7: CSPDarknet construction returns a network exactly when the request
    is not empty and both products, width_multiplier * 64 and
    depth_multiplier * 3, are finite floats. *)
Theorem X7_csp_accepts d w outs act dw built :
  (exists built' self, CSPDarknet.__init__ d w outs act dw built = (built', Ok self)) <->
  outs <> [] /\ finite (fmul_int w 64) = true /\ finite (fmul_int d 3) = true.
Proof.
  split.
  - intros (built' & self & H).
    apply CSPDarknet_init_inv in H as (Ho & bc & r & Hc & Hr & _).
    split; [exact Ho |]. split.
    + exact (int_Ok_finite _ _ Hc).
    + destruct (fmul_int d 3); simpl in *; congruence.
  - intros (Ho & Hw & Hd).
    destruct (finite_int _ Hw) as [bc Hc]. destruct (finite_round _ Hd) as [r Hr].
    eexists. eexists. now apply (CSPDarknet_init_ok d w outs act dw built bc r).
Qed.

Lemma X7_csp_accepts_witness :
  exists built' self,
    CSPDarknet.__init__ (float_of 1 (-2)) (float_of 3 (-3)) ["dark3"] "silu" false []
    = (built', Ok self).
Proof.
  apply (proj2 (X7_csp_accepts (float_of 1 (-2)) (float_of 3 (-3)) ["dark3"] "silu" false [])).
  split; [discriminate |]. split; vm_compute; reflexivity.
Defined.

(** X8: when CSPDarknet construction raises, no block has been built.
    The error is the assertion on an empty request, or else the error of
    the conversion of width_multiplier * 64 to an integer, or else, that
    product being finite, of the rounding of depth_multiplier * 3; a
    conversion raises [ValueError] or [OverflowError] (the product is NaN
    or infinite). *)
Theorem X8_csp_failures d w outs act dw built built' e :
  CSPDarknet.__init__ d w outs act dw built = (built', Raise e) ->
  built' = built /\
  ((outs = [] /\ e = AssertionError (Some "please provide output features of Darknet")) \/
   (outs <> [] /\ int (fmul_int w 64) = Raise e /\
    finite (fmul_int w 64) = false /\ (e = ValueError \/ e = OverflowError)) \/
   (outs <> [] /\ finite (fmul_int w 64) = true /\ round (fmul_int d 3) = Raise e /\
    finite (fmul_int d 3) = false /\ (e = ValueError \/ e = OverflowError))).
Proof.
  intros H. destruct outs as [| o outs].
  { rewrite CSPDarknet_init_empty in H. inversion H; subst. auto. }
  destruct (int (fmul_int w 64)) as [bc | e1] eqn:Hc.
  - destruct (round (fmul_int d 3)) as [r | e2] eqn:Hr.
    + rewrite (CSPDarknet_init_ok d w (o :: outs) act dw built bc r) in H
        by (assumption || discriminate). discriminate.
    + unfold CSPDarknet.__init__ in H. revert H. run_build. rewrite Hc.
      run_build. rewrite Hr. erewrite bind_Raise by reflexivity.
      intros H. inversion H; subst. split; [reflexivity |]. right. right.
      split; [discriminate |]. split; [exact (int_Ok_finite _ _ Hc) |].
      split; [reflexivity |]. exact (round_Raise _ _ Hr).
  - unfold CSPDarknet.__init__ in H. revert H. run_build. rewrite Hc.
    erewrite bind_Raise by reflexivity.
    intros H. inversion H; subst. split; [reflexivity |]. right. left.
    split; [discriminate |]. split; [reflexivity |]. exact (int_Raise _ _ Hc).
Qed.

Lemma X8_csp_failures_witness :
  @nil Block = [] /\
  ((["dark3"] = [] /\
    OverflowError = AssertionError (Some "please provide output features of Darknet")) \/
   (["dark3"] <> [] /\ int (fmul_int (float_of_int 1) 64) = Raise OverflowError /\
    finite (fmul_int (float_of_int 1) 64) = false /\
    (OverflowError = ValueError \/ OverflowError = OverflowError)) \/
   (["dark3"] <> [] /\ finite (fmul_int (float_of_int 1) 64) = true /\
    round (fmul_int (float_of 1 1023) 3) = Raise OverflowError /\
    finite (fmul_int (float_of 1 1023) 3) = false /\
    (OverflowError = ValueError \/ OverflowError = OverflowError))).
Proof.
  apply (X8_csp_failures (float_of 1 1023) (float_of_int 1) ["dark3"] "silu" false []).
  vm_compute. reflexivity.
Defined.

Lemma nearest_even_below q r :
  nearest_even_to q r -> (q < 3 # 2)%Q -> r <= 1.
Proof.
  intros [H _] Hq. apply Qabs_Qle_condition in H as [_ H].
  destruct q as [n dq]. unfold Qle, Qlt, Qminus, Qplus, Qopp, inject_Z in *.
  cbn [Qnum Qden] in *. nia.
Qed.

(** X9: whatever depth_multiplier the constructor accepts, zero and
    negative ones included, no CSP block repeats less than once: with
    base_depth at least 1, every stage from dark2 to dark5 holds one CSP
    block, repeating base_depth, 3 base_depth, 3 base_depth and base_depth
    times; if the product depth_multiplier * 3 is below 1.5, base_depth
    is 1. *)
Theorem X9_csp_repeats_at_least_once d w outs act dw built built' self :
  CSPDarknet.__init__ d w outs act dw built = (built', Ok self) ->
  exists base_depth,
    1 <= base_depth /\
    map csp_repeats (stages self)
    = [[]; [base_depth]; [base_depth * 3]; [base_depth * 3]; [base_depth]] /\
    ((F2Q (fmul_int d 3) < 3 # 2)%Q -> base_depth = 1).
Proof.
  intros H. apply CSPDarknet_init_inv in H as (_ & bc & r & _ & Hr & -> & _).
  exists (Z.max r 1). split; [lia |]. split; [reflexivity |].
  intros Hq. apply round_finite in Hr.
  pose proof (nearest_even_below _ _ Hr Hq). lia.
Qed.

Lemma X9_csp_repeats_at_least_once_witness :
  exists base_depth,
    1 <= base_depth /\
    map csp_repeats (stages (csp_net 64 1 ["dark5"] "silu" false))
    = [[]; [base_depth]; [base_depth * 3]; [base_depth * 3]; [base_depth]] /\
    ((F2Q (fmul_int (float_of (-5) 0) 3) < 3 # 2)%Q -> base_depth = 1).
Proof.
  apply (X9_csp_repeats_at_least_once
           (float_of (-5) 0) (float_of_int 1) ["dark5"] "silu" false []
           (all_blocks (csp_net 64 1 ["dark5"] "silu" false))).
  vm_compute. reflexivity.
Defined.

Lemma Qtrunc_small q : (Qabs q < 1)%Q -> Qtrunc q = 0.
Proof.
  destruct q as [n dq]. unfold Qlt, Qabs, Qtrunc. cbn [Qnum Qden]. intros H.
  apply Z.abs_0_iff. rewrite <- Z.quot_abs by discriminate.
  apply Z.quot_small. lia.
Qed.

(** X10: the base channel count is not checked.  For a valid float
    width_multiplier of magnitude below 1/64, zero included, an accepted
    construction derives the count 0: the stem is a [Focus] with no output
    channel and every stage declares 0 output channels. *)
Theorem X10_csp_zero_width d w outs act dw built built' self :
  CSPDarknet.__init__ d w outs act dw built = (built', Ok self) ->
  valid_binary prec emax w = true ->
  (Qabs (F2Q w) < 1 # 64)%Q ->
  stem self = Single (Focus 3 0 3 act) /\
  map stage_out (stages self) = [Some 0; Some 0; Some 0; Some 0; Some 0].
Proof.
  intros H Hv Hq. apply CSPDarknet_init_inv in H as (_ & bc & r & Hc & _ & -> & _).
  assert (Hbc : bc = 0).
  { pose proof (int_Ok_finite _ _ Hc) as Hf.
    rewrite (int_finite _ Hf) in Hc. inversion Hc as [E].
    rewrite (Qtrunc_wd _ _ (F2Q_fmul_64 w Hv Hf)).
    apply Qtrunc_small. rewrite Qabs_Qmult.
    change (Qabs 64) with 64%Q.
    apply (Qmult_lt_l _ _ 64) in Hq; [| reflexivity].
    apply (Qlt_le_trans _ _ _ Hq). unfold Qle. simpl. lia. }
  subst bc. split; reflexivity.
Qed.

Lemma X10_csp_zero_width_witness :
  stem (csp_net 0 3 ["dark5"] "silu" false) = Single (Focus 3 0 3 "silu") /\
  map stage_out (stages (csp_net 0 3 ["dark5"] "silu" false))
  = [Some 0; Some 0; Some 0; Some 0; Some 0].
Proof.
  apply (X10_csp_zero_width
           (float_of_int 1) (float_of 1 (-7)) ["dark5"] "silu" false []
           (all_blocks (csp_net 0 3 ["dark5"] "silu" false))).
  - vm_compute. reflexivity.
  - vm_compute. reflexivity.
  - vm_compute. reflexivity.
Defined.

(** ** Evaluation *)

Lemma get_restrict {Tensor : Type} outs (d : dict Tensor) name :
  get (restrict outs d) name = if contains outs name then get d name else None.
Proof.
  unfold restrict. induction d as [| [k v] d IH]; cbn [List.filter fst get].
  - now destruct (contains outs name).
  - destruct (String.eqb_spec k name) as [-> | N].
    + destruct (contains outs name) eqn:E; cbn [get].
      * now rewrite String.eqb_refl.
      * rewrite IH. now rewrite ?E.
    + destruct (contains outs k); cbn [get]; [| exact IH].
      destruct (String.eqb_spec k name); [congruence | exact IH].
Qed.

Lemma get_not_key {V : Type} (d : dict V) name :
  ~ In name (keys d) -> get d name = None.
Proof.
  induction d as [| [k v] d IH]; cbn [get keys map fst]; intros H; [reflexivity |].
  destruct (String.eqb_spec k name) as [-> | N].
  - exfalso. apply H. now left.
  - apply IH. intros Hin. apply H. now right.
Qed.

(** X11: [forward] raises exactly when some stage module raises on the
    output of the stages before it.  The error is that module's error,
    unchanged; the modules called are the stages up to and including the
    failing one, and no later stage is called. *)
Theorem X11_forward_failure {Tensor : Type} (run : Layer -> Tensor -> result Tensor)
        v self x called called' e :
  forward_of v run self x called = (called', Raise e) <->
  exists k l y,
    nth_error (stages self) k = Some l /\
    thread run (firstn k (stages self)) x = Ok y /\
    run l y = Raise e /\
    called' = called ++ firstn (S k) stage_names.
Proof.
  assert (E : forward_of v run self x called = Darknet.forward run self x called)
    by (destruct v; reflexivity).
  rewrite E. clear E.
  unfold Darknet.forward, bind, call_module, ret, stages, stage_names.
  split.
  - destruct (run (stem self) x) as [x1 | e1] eqn:E1.
    2:{ intros H. inversion H; subst. exists 0%nat, (stem self), x. auto. }
    destruct (run (dark2 self) x1) as [x2 | e2] eqn:E2.
    2:{ intros H. inversion H; subst. exists 1%nat, (dark2 self), x1.
        cbn [nth_error firstn thread]. rewrite E1, <- app_assoc. auto. }
    destruct (run (dark3 self) x2) as [x3 | e3] eqn:E3.
    2:{ intros H. inversion H; subst. exists 2%nat, (dark3 self), x2.
        cbn [nth_error firstn thread]. rewrite E1, E2, <- !app_assoc. auto. }
    destruct (run (dark4 self) x3) as [x4 | e4] eqn:E4.
    2:{ intros H. inversion H; subst. exists 3%nat, (dark4 self), x3.
        cbn [nth_error firstn thread]. rewrite E1, E2, E3, <- !app_assoc. auto. }
    destruct (run (dark5 self) x4) as [x5 | e5] eqn:E5.
    2:{ intros H. inversion H; subst. exists 4%nat, (dark5 self), x4.
        cbn [nth_error firstn thread]. rewrite E1, E2, E3, E4, <- !app_assoc. auto. }
    discriminate.
  - intros (k & l & y & Hl & Ht & Hr & ->).
    do 5 (destruct k as [| k];
          [cbn [nth_error firstn thread] in Hl, Ht;
           repeat match type of Ht with
                  | match run ?m ?z with _ => _ end = _ =>
                      destruct (run m z) eqn:?; [| discriminate Ht]
                  end;
           inversion Hl; inversion Ht; subst; rewrite Hr;
           now rewrite <- ?app_assoc |]).
    destruct k; discriminate Hl.
Qed.

Lemma X11_forward_failure_witness :
  forward_of IsDarknet short_run (darknet_net 3 32 1 2 2 1 ["stem"]) 50 []
  = ([] ++ firstn 3 stage_names, Raise ValueError).
Proof.
  apply (proj2 (X11_forward_failure short_run IsDarknet
                  (darknet_net 3 32 1 2 2 1 ["stem"]) 50 []
                  ([] ++ firstn 3 stage_names) ValueError)).
  exists 2%nat, (dark3 (darknet_net 3 32 1 2 2 1 ["stem"])), 100.
  repeat split; vm_compute; reflexivity.
Defined.

(** X12: in a mapping that [forward] returns, the value under a requested
    stage name is the output of that stage, that is the input fed through
    the stages up to and including it; a name that was not requested, or
    that is no stage name, has no entry. *)
Theorem X12_forward_values {Tensor : Type} (run : Layer -> Tensor -> result Tensor)
        v self x called called' r :
  forward_of v run self x called = (called', Ok r) ->
  (forall k name,
      nth_error stage_names k = Some name ->
      In name (out_features self) ->
      exists y,
        thread run (firstn (S k) (stages self)) x = Ok y /\ get r name = Some y) /\
  (forall name,
      ~ (In name stage_names /\ In name (out_features self)) ->
      get r name = None).
Proof.
  intros H. apply forward_of_Ok in H as (full & Hfull & _ & ->).
  destruct Hfull as [x1 x2 x3 x4 x5 E1 E2 E3 E4 E5].
  split.
  - intros k name Hk Hin. rewrite get_restrict.
    apply contains_In in Hin. rewrite Hin.
    unfold stage_names, stages in *.
    do 5 (destruct k as [| k];
          [inversion Hk; subst; cbn [firstn thread];
           rewrite ?E1, ?E2, ?E3, ?E4, ?E5; eexists; split; reflexivity |]).
    destruct k; discriminate Hk.
  - intros name Hn. rewrite get_restrict.
    destruct (contains (out_features self) name) eqn:E; [| reflexivity].
    apply contains_In in E. apply get_not_key. intros Hk. apply Hn. split; assumption.
Qed.

Lemma X12_forward_values_witness :
  (forall k name,
      nth_error stage_names k = Some name ->
      In name ["dark4"; "dark2"] ->
      exists y,
        thread count_run (firstn (S k) (stages (csp_net 64 3 ["dark4"; "dark2"] "silu" false))) 0
        = Ok y /\
        get [("dark2", 3); ("dark4", 7)] name = Some y) /\
  (forall name,
      ~ (In name stage_names /\ In name ["dark4"; "dark2"]) ->
      get [("dark2", 3); ("dark4", 7)] name = None).
Proof.
  apply (X12_forward_values count_run IsCSPDarknet
           (csp_net 64 3 ["dark4"; "dark2"] "silu" false) 0 [] stage_names).
  vm_compute. reflexivity.
Defined.

(** X13: a mapping that [forward] returns has no key twice, even if the
    request repeats a name, and at most five entries; it is empty exactly
    when the request names no stage. *)
Theorem X13_forward_result_shape {Tensor : Type} (run : Layer -> Tensor -> result Tensor)
        v self x called called' r :
  forward_of v run self x called = (called', Ok r) ->
  List.NoDup (keys r) /\
  (List.length r <= 5)%nat /\
  (r = [] <-> forall name, In name (out_features self) -> ~ In name stage_names).
Proof.
  intros H. pose proof (forward_of_keys run _ _ _ _ _ _ H) as Hk.
  assert (Hnd : List.NoDup stage_names).
  { unfold stage_names. repeat constructor; simpl; intros F;
      repeat (destruct F as [F | F]; [discriminate F |]); exact F. }
  split; [| split].
  - rewrite Hk. now apply List.NoDup_filter.
  - replace (List.length r) with (List.length (keys r))
      by (unfold keys; apply length_map).
    rewrite Hk. apply (List.filter_length_le _ stage_names).
  - split.
    + intros -> name Hin Hs.
      assert (Hf : In name (List.filter (contains (out_features self)) stage_names)).
      { apply filter_In. split; [exact Hs | now apply contains_In]. }
      rewrite <- Hk in Hf. exact Hf.
    + intros Hno. destruct r as [| [k0 v0] r]; [reflexivity |].
      assert (Hin : In k0 (List.filter (contains (out_features self)) stage_names)).
      { rewrite <- Hk. now left. }
      apply filter_In in Hin as [Hs Hc]. apply contains_In in Hc.
      exfalso. exact (Hno k0 Hc Hs).
Qed.

Lemma X13_forward_result_shape_witness :
  List.NoDup (keys [("dark3", 8)]) /\
  (List.length [("dark3", 8)] <= 5)%nat /\
  ([("dark3", 8)] = [] <->
   forall name, In name ["dark3"; "head"; "dark3"] -> ~ In name stage_names).
Proof.
  apply (X13_forward_result_shape count_run IsDarknet
           (darknet_net 3 32 1 2 2 1 ["dark3"; "head"; "dark3"]) 0 [] stage_names).
  vm_compute. reflexivity.
Defined.

(** ** Strides, kernels and options *)

(** X14: for every accepted argument list, each stage from dark2 to dark5
    opens with the only stride-2 convolution it declares, a 3x3 one.  The
    stem of a Darknet declares a stride-1 and then a stride-2 3x3
    convolution, and its dark5 goes on with stride-1 convolutions of
    kernels 1, 3, 3, 1; the stem of a CSPDarknet declares no convolution
    of its own but a [Focus] with kernel 3. *)
Theorem X14_strides_and_kernels :
  (forall depth i s outs built built' self,
      Darknet.__init__ depth i s outs built = (built', Ok self) ->
      map conv_strides (stages self) = [[1; 2]; [2]; [2]; [2]; [2; 1; 1; 1; 1]] /\
      map conv_ksizes (stages self) = [[3; 3]; [3]; [3]; [3]; [3; 1; 3; 3; 1]]) /\
  (forall d w outs act dw built built' self,
      CSPDarknet.__init__ d w outs act dw built = (built', Ok self) ->
      map conv_strides (stages self) = [[]; [2]; [2]; [2]; [2]] /\
      map conv_ksizes (stages self) = [[]; [3]; [3]; [3]; [3]] /\
      exists base_channels, stem self = Single (Focus 3 base_channels 3 act)).
Proof.
  split.
  - intros depth i s outs built built' self H.
    apply Darknet_init_inv in H as (_ & n0 & n1 & n2 & n3 & Hd & -> & _).
    destruct Hd as [[_ E] | [_ E]]; inversion E; subst; split; reflexivity.
  - intros d w outs act dw built built' self H.
    apply CSPDarknet_init_inv in H as (_ & bc & r & _ & _ & -> & _).
    split; [reflexivity |]. split; [reflexivity |]. now exists bc.
Qed.

Lemma X14_strides_and_kernels_witness :
  (map conv_strides (stages (darknet_net 3 32 2 8 8 4 ["dark5"]))
   = [[1; 2]; [2]; [2]; [2]; [2; 1; 1; 1; 1]] /\
   map conv_ksizes (stages (darknet_net 3 32 2 8 8 4 ["dark5"]))
   = [[3; 3]; [3]; [3]; [3]; [3; 1; 3; 3; 1]]) /\
  (map conv_strides (stages (csp_net 32 1 ["dark5"] "relu" true)) = [[]; [2]; [2]; [2]; [2]] /\
   map conv_ksizes (stages (csp_net 32 1 ["dark5"] "relu" true)) = [[]; [3]; [3]; [3]; [3]] /\
   exists base_channels,
     stem (csp_net 32 1 ["dark5"] "relu" true) = Single (Focus 3 base_channels 3 "relu")).
Proof.
  split.
  - apply (proj1 X14_strides_and_kernels 53 3 32 ["dark5"] []
             (all_blocks (darknet_net 3 32 2 8 8 4 ["dark5"]))).
    vm_compute. reflexivity.
  - apply (proj2 X14_strides_and_kernels
             (float_of 33 (-7)) (float_of 1 (-1)) ["dark5"] "relu" true []
             (all_blocks (csp_net 32 1 ["dark5"] "relu" true))).
    vm_compute. reflexivity.
Defined.

(** X15: a CSPDarknet hands its [act] argument to every block it builds
    and its [depthwise] argument to every CSP block, and to no other
    block; it builds no residual layer and one pooling block, in dark5.
    The CSP blocks of dark2, dark3 and dark4 are built without a
    [shortcut] argument; the one of dark5 is built with
    [shortcut=False]. *)
Theorem X15_csp_options d w outs act dw built built' self :
  CSPDarknet.__init__ d w outs act dw built = (built', Ok self) ->
  List.Forall (fun b => block_act b = Some act) (all_blocks self) /\
  map csp_flags (stages self)
  = [[]; [(None, dw)]; [(None, dw)]; [(None, dw)]; [(Some false, dw)]] /\
  map res_repeats (stages self) = [0; 0; 0; 0; 0] /\
  map spp_count (stages self) = [0; 0; 0; 0; 1]%nat.
Proof.
  intros H. apply CSPDarknet_init_inv in H as (_ & bc & r & _ & _ & -> & _).
  split; [| repeat split].
  unfold all_blocks, stages, csp_net.
  cbn [flat_map blocks stem dark2 dark3 dark4 dark5 app].
  repeat (apply List.Forall_cons; [reflexivity |]). apply List.Forall_nil.
Qed.

Lemma X15_csp_options_witness :
  List.Forall (fun b => block_act b = Some "relu")
              (all_blocks (csp_net 32 1 ["dark5"] "relu" true)) /\
  map csp_flags (stages (csp_net 32 1 ["dark5"] "relu" true))
  = [[]; [(None, true)]; [(None, true)]; [(None, true)]; [(Some false, true)]] /\
  map res_repeats (stages (csp_net 32 1 ["dark5"] "relu" true)) = [0; 0; 0; 0; 0] /\
  map spp_count (stages (csp_net 32 1 ["dark5"] "relu" true)) = [0; 0; 0; 0; 1]%nat.
Proof.
  apply (X15_csp_options (float_of 33 (-7)) (float_of 1 (-1)) ["dark5"] "relu" true []
           (all_blocks (csp_net 32 1 ["dark5"] "relu" true))).
  vm_compute. reflexivity.
Defined.

(** X16: a Darknet is built of convolutions, residual layers and one
    pooling block only: it holds no CSP block, its single pooling block
    sits in dark5, and every block that takes an activation name is given
    leaky ReLU. *)
Theorem X16_darknet_blocks depth i s outs built built' self :
  Darknet.__init__ depth i s outs built = (built', Ok self) ->
  List.Forall (fun b => block_act b = Some "lrelu" \/ exists c, b = ResLayer c)
              (all_blocks self) /\
  map csp_repeats (stages self) = [[]; []; []; []; []] /\
  map spp_count (stages self) = [0; 0; 0; 0; 1]%nat.
Proof.
  intros H. apply Darknet_init_inv in H as (_ & n0 & n1 & n2 & n3 & Hd & -> & _).
  destruct Hd as [[_ E] | [_ E]]; inversion E; subst;
    (split; [| split; reflexivity]);
    unfold all_blocks, stages, darknet_net, darknet_stem, darknet_dark5, group, spp;
    cbn [flat_map blocks stem dark2 dark3 dark4 dark5 app repeat Z.to_nat
         Pos.to_nat Pos.iter_op Nat.add];
    repeat (apply List.Forall_cons; [first [left; reflexivity | right; eexists; reflexivity] |]);
    apply List.Forall_nil.
Qed.

Lemma X16_darknet_blocks_witness :
  List.Forall (fun b => block_act b = Some "lrelu" \/ exists c, b = ResLayer c)
              (all_blocks (darknet_net 3 32 1 2 2 1 ["dark5"])) /\
  map csp_repeats (stages (darknet_net 3 32 1 2 2 1 ["dark5"])) = [[]; []; []; []; []] /\
  map spp_count (stages (darknet_net 3 32 1 2 2 1 ["dark5"])) = [0; 0; 0; 0; 1]%nat.
Proof.
  apply (X16_darknet_blocks 21 3 32 ["dark5"] []
           (all_blocks (darknet_net 3 32 1 2 2 1 ["dark5"]))).
  vm_compute. reflexivity.
Defined.
